(** * A shallow embedding of [sensortag_weather.py]

    The collector reads a TI SensorTag over BLE ([get_readings]), filters
    implausible readings and inserts one timestamped row per cadence tick into
    a Google sheet ([append_readings]), re-connecting the tag and re-logging
    into the sheet when either fails ([start_sensortag]).

    Modelling choices:
    - sensor values (Python floats) are rationals [Q]; the float arithmetic
      the code does ([ir_temp - 2], [ir_temp + 2], [round(x, 2)]) rounds its
      exact result to the nearest IEEE-754 binary64 value with [fl];
    - the [readings] dict is an association list in insertion order, with
      Python's [d[k]] (KeyError when missing), [d.get(k, '')] and
      [d[k] = v] (update in place, or append a new key); the validation in
      [append_readings] updates the caller's dict in place, and
      [remove_erroneous_in_place] gives the dict it leaves behind;
    - the outside world (BLE link, Google API, clock) is a record [World];
      whatever the code cannot decide itself is read from oracle lists in it:
      one fault flag per BLE operation, one success flag per [tag.connect],
      per [worksheet.insert_row] and per login;
    - statements run in a state and exception monad [M]; Python exceptions
      are the constructors of [exn], and [except Exception] catches all of
      them but [SystemExit]. *)

From Stdlib Require Import QArith Qabs Qround Lqa String List Bool Lia RelationClasses.
Import ListNotations.
Open Scope Q_scope.

(** ** Python values and dicts *)

(** A value stored in [readings]: a number, or the empty string [''] written
    there by the validation. *)
Inductive Cell := Num (q : Q) | Blank.

Definition Dict := list (string * Cell).

Fixpoint dict_get (d : Dict) (k : string) : option Cell :=
  match d with
  | [] => None
  | (k', v) :: d' => if String.eqb k k' then Some v else dict_get d' k
  end.

(** [d[k] = v]: replace the value of an existing key in place, or append. *)
Fixpoint dict_set (d : Dict) (k : string) (v : Cell) : Dict :=
  match d with
  | [] => [(k, v)]
  | (k', v') :: d' =>
      if String.eqb k k' then (k', v) :: d' else (k', v') :: dict_set d' k v
  end.

(** [d.get(k, '')] *)
Definition dict_get_or_blank (d : Dict) (k : string) : Cell :=
  match dict_get d k with Some v => v | None => Blank end.

(** [a / b] rounded to the nearest integer, ties to even ([b > 0]). *)
Definition div_round_even (a b : Z) : Z :=
  let q := (a / b)%Z in
  let r := (a mod b)%Z in
  match Z.compare (2 * r) b with
  | Lt => q
  | Gt => (q + 1)%Z
  | Eq => if Z.even q then q else (q + 1)%Z
  end.

(** The IEEE-754 binary64 value nearest to [p / den], ties to even: 53-bit
    significands, exponents down to -1022 and the subnormals below.  Results
    beyond the largest double (overflow to infinity) do not arise for the
    magnitudes a SensorTag reports and are not modelled. *)
Definition fl_pos (p den : positive) : Q :=
  let a := Zpos p in
  let d := Zpos den in
  let e0 := (Z.log2 a - Z.log2 d)%Z in
  let below := if Z.leb 0 e0 then Z.ltb a (d * 2 ^ e0) else Z.ltb (a * 2 ^ (- e0)) d in
  let e := if below then (e0 - 1)%Z else e0 in
  let k := (Z.max e (-1022) - 52)%Z in
  let m := if Z.leb 0 k then div_round_even a (d * 2 ^ k)
           else div_round_even (a * 2 ^ (- k)) d in
  if Z.leb 0 k then inject_Z (m * 2 ^ k) else Qmake m (Z.to_pos (2 ^ (- k))).

(** Rounding to the nearest double is symmetric about 0. *)
Definition fl (x : Q) : Q :=
  match Qnum x with
  | Z0 => 0
  | Zpos p => fl_pos p (Qden x)
  | Zneg p => - fl_pos p (Qden x)
  end.

(** Python's [round(x, 2)] on a float: the hundredth nearest to the exact
    value of [x], ties to even, returned as the double nearest to it. *)
Definition round2 (x : Q) : Q :=
  let y := x * 100 in
  let f := Qfloor y in
  let frac := y - inject_Z f in
  let n := if Qle_bool (1 # 2) frac
           then (if Qeq_bool frac (1 # 2)
                 then (if Z.even f then f else (f + 1)%Z)
                 else (f + 1)%Z)
           else f in
  fl (Qmake n 100).

Definition Qltb (x y : Q) : bool := negb (Qle_bool y x).

Arguments round2 : simpl never.
Arguments fl : simpl never.

(** ** Exceptions and results *)

Inductive exn :=
| BTLEException            (* bluepy: lost BLE link *)
| KeyError
| TypeError
| AttributeError           (* [None.insert_row] *)
| APIError                 (* gspread / oauth failure *)
| SystemExit (code : Z).

(** [except Exception] catches everything but [SystemExit]. *)
Definition is_Exception (e : exn) : bool :=
  match e with SystemExit _ => false | _ => true end.

Definition is_BTLEException (e : exn) : bool :=
  match e with BTLEException => true | _ => false end.

Inductive Res (A : Type) := Ok (a : A) | Raise (e : exn).
Arguments Ok {A} a.
Arguments Raise {A} e.

(** Status of the Python process for a result of the main program: still
    running ([None]), or exited with a code.  An uncaught exception exits
    with code 1, [sys.exit(c)] with [c]. *)
Definition exit_status {A} (r : Res A) : option Z :=
  match r with
  | Ok _ => None
  | Raise (SystemExit c) => Some c
  | Raise _ => Some 1%Z
  end.

(** Pure code that may raise: [validate]'s lookups and comparisons. *)
Definition rbind {A B} (r : Res A) (f : A -> Res B) : Res B :=
  match r with Ok a => f a | Raise e => Raise e end.
Notation "'let?' x ':=' r 'in' k" := (rbind r (fun x => k))
  (at level 200, x name, r at level 100, k at level 200).

(** [d[k]] *)
Definition getitem (d : Dict) (k : string) : Res Cell :=
  match dict_get d k with Some v => Ok v | None => Raise KeyError end.

(** [a < b] on readings; comparing [''] with a number is a TypeError. *)
Definition py_lt (a b : Cell) : Res bool :=
  match a, b with Num x, Num y => Ok (Qltb x y) | _, _ => Raise TypeError end.

Definition py_gt (a b : Cell) : Res bool := py_lt b a.

(** [a + c] and [a - c] on a float reading and an integer: the exact result
    rounded to a double; [''] + 2 is a TypeError. *)
Definition py_add (a : Cell) (c : Q) : Res Cell :=
  match a with Num x => Ok (Num (fl (x + c))) | Blank => Raise TypeError end.

Definition py_sub (a : Cell) (c : Q) : Res Cell :=
  match a with Num x => Ok (Num (fl (x - c))) | Blank => Raise TypeError end.

(** ** The world *)

Inductive Sensor :=
| IRtemperature | accelerometer | humidity | magnetometer
| barometer | gyroscope | keypress | lightmeter.

Inductive DevOp := Enable (s : Sensor) | Disable (s : Sensor) | Read (s : Sensor).

(** A row handed to [worksheet.insert_row]: [datetime.now()] then the cells. *)
Record Row := mkRow { stamp : Q; cells : list Cell }.

Record World := mkWorld {
  connected : bool;                 (* BLE link up *)
  dev_faults : list bool;           (* per BLE operation: the link drops here *)
  sample_src : nat -> Q;            (* the n-th value the tag reports *)
  nsampled : nat;
  devlog : list DevOp;              (* BLE operations attempted, newest first *)
  faults : nat;                     (* BLE operations that raised *)
  connect_ok : list bool;           (* per [tag.connect] *)
  insert_ok : list bool;            (* per [worksheet.insert_row] *)
  login_ok : list bool;             (* per Google login *)
  sessions : nat;                   (* worksheet handles minted *)
  clock : Q;                        (* [datetime.now()] *)
  sleeps : list Q;                  (* [time.sleep] durations, newest first *)
  sheet : list Row;                 (* the worksheet's rows *)
  inserts : list (nat * Row * bool) (* [insert_row] calls, newest first *)
}.

(** ** The state and exception monad *)

Definition M (A : Type) := World -> Res A * World.

Definition ret {A} (a : A) : M A := fun w => (Ok a, w).
Definition raise {A} (e : exn) : M A := fun w => (Raise e, w).
Definition lift {A} (r : Res A) : M A := fun w => (r, w).

Definition bind {A B} (m : M A) (f : A -> M B) : M B :=
  fun w => let (r, w') := m w in
           match r with Ok a => f a w' | Raise e => (Raise e, w') end.

Notation "x <- m ;; k" := (bind m (fun x => k))
  (at level 61, m at next level, right associativity).
Notation "m ;; k" := (bind m (fun _ => k)) (at level 61, right associativity).

(** [try: m except <catches> as e: h e] *)
Definition try_except {A} (m : M A) (catches : exn -> bool) (h : exn -> M A) : M A :=
  fun w => let (r, w') := m w in
           match r with
           | Raise e => if catches e then h e w' else (Raise e, w')
           | Ok a => (Ok a, w')
           end.

Definition pop (dflt : bool) (l : list bool) : bool * list bool :=
  match l with [] => (dflt, []) | b :: l' => (b, l') end.

(** [worksheet.insert_row(values, index)]: gspread inserts at the 1-based
    [index], shifting the rows from there down. *)
Definition insert_at (index : nat) (r : Row) (s : list Row) : list Row :=
  firstn (index - 1) s ++ r :: skipn (index - 1) s.

(** ** External operations *)

(** One BLE operation on the tag: it raises [BTLEException] when the link is
    down or drops during the operation. *)
Definition dev_step (o : DevOp) : M unit := fun w =>
  let (f, fs) := pop false (dev_faults w) in
  if negb (connected w) || f then
    (Raise BTLEException,
     mkWorld false fs (sample_src w) (nsampled w) (o :: devlog w) (S (faults w))
       (connect_ok w) (insert_ok w) (login_ok w) (sessions w) (clock w)
       (sleeps w) (sheet w) (inserts w))
  else
    (Ok tt,
     mkWorld true fs (sample_src w) (nsampled w) (o :: devlog w) (faults w)
       (connect_ok w) (insert_ok w) (login_ok w) (sessions w) (clock w)
       (sleeps w) (sheet w) (inserts w)).

(** The next value reported by the tag. *)
Definition dev_value : M Q := fun w =>
  (Ok (sample_src w (nsampled w)),
   mkWorld (connected w) (dev_faults w) (sample_src w) (S (nsampled w))
     (devlog w) (faults w) (connect_ok w) (insert_ok w) (login_ok w)
     (sessions w) (clock w) (sleeps w) (sheet w) (inserts w)).

(** [time.sleep(d)] *)
Definition time_sleep (d : Q) : M unit := fun w =>
  (Ok tt,
   mkWorld (connected w) (dev_faults w) (sample_src w) (nsampled w)
     (devlog w) (faults w) (connect_ok w) (insert_ok w) (login_ok w)
     (sessions w) (clock w + d) (d :: sleeps w) (sheet w) (inserts w)).

(** [datetime.datetime.now()] *)
Definition now : M Q := fun w => (Ok (clock w), w).

(** [tag.connect(tag.deviceAddr, tag.addrType)] *)
Definition tag_connect : M unit := fun w =>
  let (ok, l) := pop true (connect_ok w) in
  (if ok then Ok tt else Raise BTLEException,
   mkWorld ok (dev_faults w) (sample_src w) (nsampled w) (devlog w) (faults w)
     l (insert_ok w) (login_ok w) (sessions w) (clock w) (sleeps w)
     (sheet w) (inserts w)).

(** [ServiceAccountCredentials...; gspread.authorize(..).open(..).worksheet(..)]:
    a fresh worksheet handle, or an API failure. *)
Definition gspread_open : M nat := fun w =>
  let (ok, l) := pop true (login_ok w) in
  (if ok then Ok (S (sessions w)) else Raise APIError,
   mkWorld (connected w) (dev_faults w) (sample_src w) (nsampled w) (devlog w)
     (faults w) (connect_ok w) (insert_ok w) l
     (if ok then S (sessions w) else sessions w) (clock w) (sleeps w)
     (sheet w) (inserts w)).

(** [worksheet.insert_row(values, index)]; [worksheet] is [None] or a handle. *)
Definition insert_row (worksheet : option nat) (values : Row) (index : nat) : M unit :=
  match worksheet with
  | None => raise AttributeError
  | Some _ => fun w =>
      let (ok, l) := pop true (insert_ok w) in
      (if ok then Ok tt else Raise APIError,
       mkWorld (connected w) (dev_faults w) (sample_src w) (nsampled w)
         (devlog w) (faults w) (connect_ok w) l (login_ok w) (sessions w)
         (clock w) (sleeps w)
         (if ok then insert_at index values (sheet w) else sheet w)
         ((index, values, ok) :: inserts w))
  end.

(** ** The program *)

Definition FREQUENCY_SECONDS : Q := 55.

Definition enable_sensors : M unit :=
  dev_step (Enable IRtemperature) ;;
  dev_step (Enable accelerometer) ;;
  dev_step (Enable humidity) ;;
  dev_step (Enable magnetometer) ;;
  dev_step (Enable barometer) ;;
  dev_step (Enable gyroscope) ;;
  dev_step (Enable keypress) ;;
  dev_step (Enable lightmeter) ;;
  time_sleep 1.

Definition disable_sensors : M unit :=
  dev_step (Disable IRtemperature) ;;
  dev_step (Disable accelerometer) ;;
  dev_step (Disable humidity) ;;
  dev_step (Disable magnetometer) ;;
  dev_step (Disable barometer) ;;
  dev_step (Disable gyroscope) ;;
  dev_step (Disable keypress) ;;
  dev_step (Disable lightmeter).

(** [tag.X.read()] for a sensor reporting two values, and for the luxmeter. *)
Definition read_pair (s : Sensor) : M (Q * Q) :=
  dev_step (Read s) ;; a <- dev_value ;; b <- dev_value ;; ret (a, b).

Definition read_one (s : Sensor) : M Q :=
  dev_step (Read s) ;; dev_value.

(** [{key: round(value, 2) for key, value in readings.items()}] *)
Fixpoint round_all (d : Dict) : Res Dict :=
  match d with
  | [] => Ok []
  | (k, Num q) :: d' => let? r := round_all d' in Ok ((k, Num (round2 q)) :: r)
  | (_, Blank) :: _ => Raise TypeError
  end.

Definition get_readings : M Dict :=
  try_except
    (let readings := @nil (string * Cell) in
     enable_sensors ;;
     p <- read_pair IRtemperature ;;
     let readings := dict_set (dict_set readings "ir_temp" (Num (fst p))) "ir" (Num (snd p)) in
     p <- read_pair humidity ;;
     let readings := dict_set (dict_set readings "humidity_temp" (Num (fst p))) "humidity" (Num (snd p)) in
     p <- read_pair barometer ;;
     let readings := dict_set (dict_set readings "baro_temp" (Num (fst p))) "pressure" (Num (snd p)) in
     v <- read_one lightmeter ;;
     let readings := dict_set readings "light" (Num v) in
     disable_sensors ;;
     lift (round_all readings))
    is_BTLEException
    (fun _ => ret []).


(** [reconnect(tag)]: the exception of a failed connect is re-raised. *)
Definition reconnect : M unit :=
  try_except tag_connect is_Exception (fun e => raise e).

(** [login_open_sheet(...)]: any failure ends in [sys.exit(1)]. *)
Definition login_open_sheet : M nat :=
  try_except gspread_open is_Exception (fun _ => raise (SystemExit 1)).

(** The "Remove erroneous readings" block of [append_readings] (lines
    162-166), which mutates [readings] in place. *)
Definition remove_erroneous (readings : Dict) : Res Dict :=
  let? ht := getitem readings "humidity_temp" in
  let? it := getitem readings "ir_temp" in
  let? lo := py_sub it 2 in
  let? c1 := py_lt ht lo in
  let? c := (if c1 then Ok true
             else let? ht := getitem readings "humidity_temp" in
                  let? it := getitem readings "ir_temp" in
                  let? hi := py_add it 2 in
                  py_gt ht hi) in
  let readings := if c then dict_set readings "humidity_temp" Blank else readings in
  let? h := getitem readings "humidity" in
  let? c2 := py_lt h (Num 1) in
  let? c' := (if c2 then Ok true
              else let? h := getitem readings "humidity" in py_gt h (Num 99)) in
  Ok (if c' then dict_set readings "humidity" Blank else readings).

(** The same block as the in-place updates it makes to the caller's dict:
    the dict as the block leaves it, and whether it raised.  A raise in the
    second [if] leaves the update of the first one in place. *)
Definition remove_erroneous_in_place (readings : Dict) : Dict * Res unit :=
  match (let? ht := getitem readings "humidity_temp" in
         let? it := getitem readings "ir_temp" in
         let? lo := py_sub it 2 in
         let? c1 := py_lt ht lo in
         if c1 then Ok true
         else let? ht := getitem readings "humidity_temp" in
              let? it := getitem readings "ir_temp" in
              let? hi := py_add it 2 in
              py_gt ht hi) with
  | Raise e => (readings, Raise e)
  | Ok c =>
      let readings := if c then dict_set readings "humidity_temp" Blank else readings in
      match (let? h := getitem readings "humidity" in
             let? c2 := py_lt h (Num 1) in
             if c2 then Ok true
             else let? h := getitem readings "humidity" in py_gt h (Num 99)) with
      | Raise e => (readings, Raise e)
      | Ok c' => (if c' then dict_set readings "humidity" Blank else readings, Ok tt)
      end
  end.

Definition columns : list string :=
  ["ir_temp"; "humidity_temp"; "baro_temp"; "ir"; "humidity"; "pressure"; "light"]%string.

(** [[datetime.datetime.now()] + [readings.get(col, '') for col in columns]] *)
Definition row_of (ts : Q) (readings : Dict) : Row :=
  mkRow ts (map (dict_get_or_blank readings) columns).

(** [append_readings(worksheet, readings, row)]: the worksheet, or [None]
    when anything failed.  The validation also updates the caller's dict in
    place, which is left as [fst (remove_erroneous_in_place readings)]
    whatever happens next; [start_sensortag] never reads that dict again
    (the next pass binds [readings] afresh), so the loop passes on only the
    result and the world. *)
Definition append_readings (worksheet : option nat) (readings : Dict) (row : nat)
  : M (option nat) :=
  try_except
    (readings <- lift (remove_erroneous readings) ;;
     ts <- now ;;
     insert_row worksheet (row_of ts readings) row ;;
     ret worksheet)
    is_Exception
    (fun _ => ret None).

(** The loop variables of [start_sensortag]. *)
Record Loop := mkLoop { worksheet : option nat; row : nat }.

(** How one pass of the [while True] body ended. *)
Inductive Kind := Empty | Stale | Written.

(** The [print] lines 205-209 look up these keys. *)
Definition print_readings (readings : Dict) : M unit :=
  _ <- lift (getitem readings "ir") ;; _ <- lift (getitem readings "ir_temp") ;;
  _ <- lift (getitem readings "humidity") ;; _ <- lift (getitem readings "humidity_temp") ;;
  _ <- lift (getitem readings "pressure") ;; _ <- lift (getitem readings "baro_temp") ;;
  _ <- lift (getitem readings "light") ;; ret tt.

(** One pass of the [while True] body of [start_sensortag]. *)
Definition loop_body (st : Loop) : M (Loop * Kind) :=
  readings <- get_readings ;;
  match readings with
  | [] => reconnect ;; ret (st, Empty)
  | _ :: _ =>
      print_readings readings ;;
      ws <- append_readings (worksheet st) readings (row st) ;;
      match ws with
      | None =>
          ws <- login_open_sheet ;; ret (mkLoop (Some ws) (row st), Stale)
      | Some h =>
          time_sleep FREQUENCY_SECONDS ;; ret (mkLoop (Some h) (S (row st)), Written)
      end
  end.

(** [n] passes of the loop, with how each ended. *)
Fixpoint run (n : nat) (st : Loop) : M (Loop * list Kind) :=
  match n with
  | O => ret (st, [])
  | S n' =>
      p <- loop_body st ;;
      q <- run n' (fst p) ;;
      ret (fst q, snd p :: snd q)
  end.

(** [start_sensortag()] for its first [n] passes: [SensorTag(addr)] connects,
    then the first login, then the loop from [row = 1]. *)
Definition start_sensortag (n : nat) : M (Loop * list Kind) :=
  tag_connect ;;
  ws <- login_open_sheet ;;
  run n (mkLoop (Some ws) 1).

(** ** The spec's row format, for comparison with [row_of] *)
Module SpecRow.

(** The spec's channels, with the dict key the source stores each under. *)
Inductive Channel :=
| infrared_object_temp | humidity_temp | barometer_temp | infrared_ambient
| humidity | pressure | light.

Definition key_of (c : Channel) : string :=
  match c with
  | infrared_object_temp => "ir_temp"
  | humidity_temp => "humidity_temp"
  | barometer_temp => "baro_temp"
  | infrared_ambient => "ir"
  | humidity => "humidity"
  | pressure => "pressure"
  | light => "light"
  end%string.

(** A spec Sample: an optional value per channel. *)
Definition Sample := Channel -> option Q.

(** "a Sample plus a capture timestamp, in a fixed column order
    {infrared_object_temp, humidity_temp, barometer_temp, infrared_ambient,
    humidity, pressure, light}; missing fields serialize as empty cells". *)
Definition column_order : list Channel :=
  [infrared_object_temp; humidity_temp; barometer_temp; infrared_ambient;
   humidity; pressure; light].

Definition serialize (ts : Q) (s : Sample) : Row :=
  mkRow ts (map (fun c => match s c with Some q => Num q | None => Blank end) column_order).

(** A readings dict holds a Sample when each present channel is a number
    under its key and each absent one is missing or [''] . *)
Definition represents (r : Dict) (s : Sample) : Prop :=
  forall c, match s c with
            | Some q => dict_get r (key_of c) = Some (Num q)
            | None => dict_get r (key_of c) = None \/ dict_get r (key_of c) = Some Blank
            end.

End SpecRow.

(** ** Acquisition: reference sequences *)

(** The BLE operations [get_readings] issues when nothing fails: the eight
    enables, the four reads, the eight disables. *)
Definition full_ops : list DevOp :=
  map Enable [IRtemperature; accelerometer; humidity; magnetometer;
              barometer; gyroscope; keypress; lightmeter] ++
  map Read [IRtemperature; humidity; barometer; lightmeter] ++
  map Disable [IRtemperature; accelerometer; humidity; magnetometer;
               barometer; gyroscope; keypress; lightmeter].

(** The prefix of [ops] run against a link that is up ([conn]) and drops at
    the operations flagged in [fs]: every operation up to and including the
    first one that fails. *)
Fixpoint attempt (conn : bool) (ops : list DevOp) (fs : list bool) : list DevOp :=
  match ops with
  | [] => []
  | o :: ops' =>
      let (f, fs') := pop false fs in
      if negb conn || f then [o] else o :: attempt true ops' fs'
  end.

(** A complete Sample as [get_readings] returns it. *)
Definition readings_of (ir_temp ir humidity_temp humidity baro_temp pressure light : Q)
  : Dict :=
  [("ir_temp", Num (round2 ir_temp)); ("ir", Num (round2 ir));
   ("humidity_temp", Num (round2 humidity_temp)); ("humidity", Num (round2 humidity));
   ("baro_temp", Num (round2 baro_temp)); ("pressure", Num (round2 pressure));
   ("light", Num (round2 light))]%string.

(** The Sample an acquisition returns when the tag reports the values [src n],
    ..., [src (6 + n)]. *)
Definition next_sample (src : nat -> Q) (n : nat) : Dict :=
  readings_of (src n) (src (1 + n)%nat) (src (2 + n)%nat) (src (3 + n)%nat)
    (src (4 + n)%nat) (src (5 + n)%nat) (src (6 + n)%nat).

(** What the BLE-only code leaves untouched: the Google side, the oracles of
    connect and login, and the sleeps but for the one-second settle delay. *)
Definition dev_frame (w w' : World) : Prop :=
  connect_ok w' = connect_ok w /\ insert_ok w' = insert_ok w /\
  login_ok w' = login_ok w /\ sessions w' = sessions w /\
  sheet w' = sheet w /\ inserts w' = inserts w /\
  (sleeps w' = sleeps w \/ sleeps w' = 1 :: sleeps w).

(** ** Concrete inputs used by the witnesses and counterexamples *)

(** A world with the link up or down, the given fault and success oracles,
    a tag reporting 20, 21, 22, ... and an empty sheet. *)
Definition world_of (up : bool) (df co io lo : list bool) : World :=
  mkWorld up df (fun k => 20 + inject_Z (Z.of_nat k)) 0 [] 0 co io lo 1 0 [] [] [].

(** The loop right after startup: logged in, [row = 1]. *)
Definition st0 : Loop := mkLoop (Some 1%nat) 1.

(** The link drops at the first read, after the eight enables succeeded. *)
Definition world_fault_at_read : World :=
  world_of true (repeat false 8 ++ [true]) [] [] [].

(** The only insert attempt fails (STALE), every later call succeeds. *)
Definition world_stale_once : World := world_of true [] [] [false] [].

(** Two acquisitions lose the link at their first operation. *)
Definition world_two_drops : World := world_of true [true; true] [] [] [].

(** The link drops at once and the reconnect fails. *)
Definition world_reconnect_fails : World := world_of true [true] [false] [] [].

(** Startup succeeds, then the link drops and the reconnect fails. *)
Definition world_drop_after_start : World := world_of false [true] [true; false] [] [].

(** The insert fails (STALE) and so does the login that follows. *)
Definition world_stale_relogin_fails : World := world_of true [] [] [false] [false].

Definition is_disable (o : DevOp) : bool :=
  match o with Disable _ => true | _ => false end.

(** Readings right on the humidity bounds. *)
Definition sample_edge99 : Dict :=
  [("ir_temp", Num 22); ("ir", Num 21); ("humidity_temp", Num 22);
   ("humidity", Num 99); ("baro_temp", Num 23); ("pressure", Num (1013 # 10));
   ("light", Num 310)]%string.

Definition sample_edge1 : Dict :=
  [("ir_temp", Num 22); ("ir", Num 21); ("humidity_temp", Num 22);
   ("humidity", Num 1); ("baro_temp", Num 23); ("pressure", Num (1013 # 10));
   ("light", Num 310)]%string.

(** The spec's example: infrared 22.0, humidity sensor 25.5. *)
Definition sample_spec : Dict :=
  [("ir_temp", Num 22); ("ir", Num 21); ("humidity_temp", Num (255 # 10));
   ("humidity", Num (1 # 2)); ("baro_temp", Num 23); ("pressure", Num (1013 # 10));
   ("light", Num 310)]%string.

(** Readings whose infrared and humidity-sensor temperatures are [it] and
    [ht], the humidity 50. *)
Definition sample_band (it ht : Q) : Dict :=
  [("ir_temp", Num it); ("ir", Num 21); ("humidity_temp", Num ht);
   ("humidity", Num 50); ("baro_temp", Num 23); ("pressure", Num (1013 # 10));
   ("light", Num 310)]%string.

(** Readings that lack the humidity field, with the humidity-sensor
    temperature far from the infrared one. *)
Definition sample_no_humidity : Dict :=
  [("ir_temp", Num 20); ("humidity_temp", Num 30)]%string.

(** The spec's serialization example: ir_temp=21.5, humidity absent,
    pressure=101.3, light=310.0, the rest absent. *)
Definition example_readings : Dict :=
  [("ir_temp", Num (215 # 10)); ("humidity", Blank);
   ("pressure", Num (1013 # 10)); ("light", Num 310)]%string.

Definition example_sample : SpecRow.Sample := fun c =>
  match c with
  | SpecRow.infrared_object_temp => Some (215 # 10)
  | SpecRow.pressure => Some (1013 # 10)
  | SpecRow.light => Some 310
  | _ => None
  end.

(** ** Bookkeeping over several passes *)

(** How many passes wrote a row. *)
Fixpoint count_written (ks : list Kind) : nat :=
  match ks with
  | [] => O
  | Written :: ks' => S (count_written ks')
  | _ :: ks' => count_written ks'
  end.

(** The rows of the [insert_row] calls that succeeded, newest first. *)
Fixpoint written_rows (log : list (nat * Row * bool)) : list Row :=
  match log with
  | [] => []
  | (_, rw, true) :: log' => rw :: written_rows log'
  | (_, _, false) :: log' => written_rows log'
  end.

(** The cadence sleeps among [time.sleep] durations. *)
Definition cadence_sleeps (ds : list Q) : nat :=
  length (filter (fun d => Qeq_bool d FREQUENCY_SECONDS) ds).

(** A world where every BLE operation, connect, insert and login succeeds. *)
Definition world_calm : World := world_of true [] [] [] [].

(** The first connect of the program fails. *)
Definition world_no_tag : World := world_of false [] [false] [] [].

(** The tag connects, the first login fails. *)
Definition world_no_login : World := world_of false [] [] [] [false].

(** The two passes of [world_stale_once]: the failed append and the retry. *)
Definition w_stale1 : World := snd (loop_body st0 world_stale_once).

Definition w_stale2 : World := snd (loop_body (mkLoop (Some 2%nat) 1) w_stale1).

(** ** Lemmas *)

Lemma Qltb_iff x y : Qltb x y = true <-> x < y.
Proof.
  unfold Qltb. rewrite negb_true_iff. split; intro H.
  - apply Qnot_le_lt. intro H'. apply Qle_bool_iff in H'. congruence.
  - destruct (Qle_bool y x) eqn:E; [|reflexivity].
    apply Qle_bool_iff in E. exfalso. apply (Qlt_not_le x y); assumption.
Qed.

Lemma dict_get_set_eq d k v : dict_get (dict_set d k v) k = Some v.
Proof.
  induction d as [|[k' v'] d IH]; simpl.
  - rewrite String.eqb_refl. reflexivity.
  - destruct (String.eqb k k') eqn:E; simpl; rewrite ?E; auto.
Qed.

Lemma dict_get_set_ne d k k' v :
  k' <> k -> dict_get (dict_set d k v) k' = dict_get d k'.
Proof.
  intro Hne. induction d as [|[k0 v0] d IH]; simpl.
  - destruct (String.eqb k' k) eqn:E; [apply String.eqb_eq in E; congruence | reflexivity].
  - destruct (String.eqb k k0) eqn:E; simpl.
    + apply String.eqb_eq in E; subst k0.
      destruct (String.eqb k' k) eqn:E'; [apply String.eqb_eq in E'; congruence | reflexivity].
    + rewrite IH. reflexivity.
Qed.

Lemma dict_keys_set d k v :
  dict_get d k <> None -> map fst (dict_set d k v) = map fst d.
Proof.
  induction d as [|[k0 v0] d IH]; simpl; intro H.
  - congruence.
  - destruct (String.eqb k k0); simpl; [reflexivity|].
    rewrite IH by assumption. reflexivity.
Qed.

(** The validation block, evaluated on a dict whose three inspected keys
    hold numbers. *)
Lemma remove_erroneous_eq r ht it h :
  dict_get r "humidity_temp" = Some (Num ht) ->
  dict_get r "ir_temp" = Some (Num it) ->
  dict_get r "humidity" = Some (Num h) ->
  remove_erroneous r =
  Ok (let r1 := if Qltb ht (fl (it - 2)) || Qltb (fl (it + 2)) ht
                then dict_set r "humidity_temp" Blank else r in
      if Qltb h 1 || Qltb 99 h then dict_set r1 "humidity" Blank else r1).
Proof.
  intros H1 H2 H3. unfold remove_erroneous, getitem.
  rewrite H1, H2. simpl.
  destruct (Qltb ht (fl (it - 2))); simpl.
  - rewrite dict_get_set_ne by discriminate. rewrite H3. simpl.
    destruct (Qltb h 1); reflexivity.
  - simpl. unfold py_gt, py_lt.
    destruct (Qltb (fl (it + 2)) ht); simpl.
    + rewrite dict_get_set_ne by discriminate. rewrite H3. simpl.
      destruct (Qltb h 1); reflexivity.
    + rewrite H3. simpl. destruct (Qltb h 1); reflexivity.
Qed.

Lemma band_iff ht it :
  (Qltb ht (fl (it - 2)) || Qltb (fl (it + 2)) ht = true) <->
  (ht < fl (it - 2) \/ fl (it + 2) < ht).
Proof. rewrite orb_true_iff, !Qltb_iff. reflexivity. Qed.

(** When both bounds are doubles already, the band is the exact one. *)
Lemma band_exact_iff ht it :
  fl (it - 2) == it - 2 -> fl (it + 2) == it + 2 ->
  (ht < fl (it - 2) \/ fl (it + 2) < ht) <-> 2 < Qabs (ht - it).
Proof.
  intros Lo Hi. rewrite Lo, Hi.
  apply Qabs_case; intro Hs; split.
  - intros [H | H]; lra.
  - intro H. right. lra.
  - intros [H | H]; lra.
  - intro H. left. lra.
Qed.

Lemma range_iff h :
  (Qltb h 1 || Qltb 99 h = true) <-> (h < 1 \/ 99 < h).
Proof. rewrite orb_true_iff, !Qltb_iff. reflexivity. Qed.

Lemma set_if_get_ne (b : bool) r k k' v :
  k' <> k -> dict_get (if b then dict_set r k v else r) k' = dict_get r k'.
Proof. intro H. destruct b; [apply dict_get_set_ne; assumption | reflexivity]. Qed.

Lemma remove_erroneous_ok_inv r r' :
  remove_erroneous r = Ok r' ->
  exists ht it h,
    dict_get r "humidity_temp" = Some (Num ht) /\
    dict_get r "ir_temp" = Some (Num it) /\
    dict_get r "humidity" = Some (Num h).
Proof.
  intro H. unfold remove_erroneous, getitem in H.
  destruct (dict_get r "humidity_temp") as [[ht|]|] eqn:E1; simpl in H;
    [| destruct (dict_get r "ir_temp") as [[]|]; simpl in H; discriminate
     | discriminate].
  destruct (dict_get r "ir_temp") as [[it|]|] eqn:E2; simpl in H; try discriminate.
  destruct (dict_get r "humidity") as [[h|]|] eqn:E3; [eauto 10 | |];
    exfalso; unfold py_gt, py_lt in H; simpl in H;
    destruct (Qltb ht (fl (it - 2))); simpl in H;
    try (destruct (Qltb (fl (it + 2)) ht); simpl in H);
    rewrite ?dict_get_set_ne in H by discriminate; rewrite E3 in H; simpl in H;
    discriminate.
Qed.

(** [remove_erroneous] is the in-place block's outcome: the updated dict when
    it completes, its exception otherwise. *)
Lemma remove_erroneous_in_place_eq r :
  remove_erroneous r =
  match remove_erroneous_in_place r with (d, Ok _) => Ok d | (_, Raise e) => Raise e end.
Proof.
  unfold remove_erroneous, remove_erroneous_in_place.
  destruct (getitem r "humidity_temp") as [ht|e]; cbn [rbind]; [|reflexivity].
  destruct (getitem r "ir_temp") as [it|e]; cbn [rbind]; [|reflexivity].
  destruct (py_sub it 2) as [lo|e]; cbn [rbind]; [|reflexivity].
  destruct (py_lt ht lo) as [c1|e]; cbn [rbind]; [|reflexivity].
  destruct (if c1 then Ok true else _) as [c|e]; cbn [rbind]; [|reflexivity].
  destruct (getitem (if c then _ else r) "humidity") as [h|e]; cbn [rbind]; [|reflexivity].
  destruct (py_lt h (Num 1)) as [c2|e]; cbn [rbind]; [|reflexivity].
  destruct (if c2 then Ok true else _) as [c'|e]; reflexivity.
Qed.

(** A raise leaves the caller's dict as it was, or with [humidity_temp]
    already blanked by the first [if]. *)
Lemma remove_erroneous_in_place_partial r d e :
  remove_erroneous_in_place r = (d, Raise e) ->
  d = r \/ d = dict_set r "humidity_temp" Blank.
Proof.
  unfold remove_erroneous_in_place. intro H.
  destruct (rbind (getitem r "humidity_temp") _) as [c|e1].
  - destruct c.
    + destruct (rbind (getitem (dict_set r "humidity_temp" Blank) "humidity") _) as [[]|e2];
        injection H; intros; subst; auto; discriminate.
    + destruct (rbind (getitem r "humidity") _) as [[]|e2];
        injection H; intros; subst; auto; discriminate.
  - injection H; intros; subst; auto.
Qed.

(** ** Validation: [remove_erroneous] *)

(** C4 (amended). The humidity field is blanked exactly when the humidity is
    below 1 or above 99; every value in the closed interval [1, 99], the
    bounds 1.0 and 99.0 included, is kept unchanged. *)
Theorem validate_humidity_closed_range r ht it h :
  dict_get r "humidity_temp" = Some (Num ht) ->
  dict_get r "ir_temp" = Some (Num it) ->
  dict_get r "humidity" = Some (Num h) ->
  exists r', remove_erroneous r = Ok r' /\
    (dict_get r' "humidity" = Some Blank <-> (h < 1 \/ 99 < h)) /\
    (~ (h < 1 \/ 99 < h) -> dict_get r' "humidity" = Some (Num h)).
Proof.
  intros H1 H2 H3. rewrite (remove_erroneous_eq r ht it h H1 H2 H3).
  eexists; split; [reflexivity|]. cbv zeta.
  destruct (Qltb h 1 || Qltb 99 h) eqn:E.
  - rewrite dict_get_set_eq. apply range_iff in E. split; [tauto | intro N; contradiction].
  - rewrite set_if_get_ne by discriminate. rewrite H3.
    assert (N : ~ (h < 1 \/ 99 < h)) by (rewrite <- range_iff; congruence).
    split; [split; [discriminate | intro; contradiction] | reflexivity].
Qed.

Lemma validate_humidity_closed_range_witness :
  (dict_get sample_spec "humidity_temp" = Some (Num (255 # 10)) /\
   dict_get sample_spec "ir_temp" = Some (Num 22) /\
   dict_get sample_spec "humidity" = Some (Num (1 # 2))) /\
  exists r', remove_erroneous sample_spec = Ok r' /\
    (dict_get r' "humidity" = Some Blank <-> ((1 # 2) < 1 \/ 99 < (1 # 2))) /\
    (~ ((1 # 2) < 1 \/ 99 < (1 # 2)) -> dict_get r' "humidity" = Some (Num (1 # 2))).
Proof.
  split; [repeat split; reflexivity|].
  apply (validate_humidity_closed_range sample_spec (255 # 10) 22 (1 # 2));
    reflexivity.
Defined.

(** C4 counterexample. Humidity 99.0 (and 1.0) is not blanked: the
    comparisons are strict, so the kept interval is [1, 99], not (1, 99). *)
Lemma validate_humidity_bounds_kept :
  remove_erroneous sample_edge99 = Ok sample_edge99 /\
  remove_erroneous sample_edge1 = Ok sample_edge1 /\
  ~ (exists r', remove_erroneous sample_edge99 = Ok r' /\
                dict_get r' "humidity" = Some Blank).
Proof.
  split; [vm_compute; reflexivity|]. split; [vm_compute; reflexivity|].
  intros [r' [E H]]. vm_compute in E. injection E as <-. vm_compute in H. discriminate.
Qed.

(** C5 (amended). The humidity-sensor temperature is blanked exactly when it
    lies below [ir_temp - 2] or above [ir_temp + 2], both bounds computed in
    floating point (rounded to the nearest double), and kept otherwise; when
    both bounds are exact this is [|humidity_temp - ir_temp| > 2].  The
    infrared fields are never changed. *)
Theorem validate_humidity_temp_band r ht it h :
  dict_get r "humidity_temp" = Some (Num ht) ->
  dict_get r "ir_temp" = Some (Num it) ->
  dict_get r "humidity" = Some (Num h) ->
  exists r', remove_erroneous r = Ok r' /\
    (dict_get r' "humidity_temp" = Some Blank <-> (ht < fl (it - 2) \/ fl (it + 2) < ht)) /\
    (~ (ht < fl (it - 2) \/ fl (it + 2) < ht) ->
       dict_get r' "humidity_temp" = Some (Num ht)) /\
    (fl (it - 2) == it - 2 -> fl (it + 2) == it + 2 ->
       (dict_get r' "humidity_temp" = Some Blank <-> 2 < Qabs (ht - it))) /\
    dict_get r' "ir_temp" = Some (Num it) /\
    dict_get r' "ir" = dict_get r "ir".
Proof.
  intros H1 H2 H3. rewrite (remove_erroneous_eq r ht it h H1 H2 H3).
  eexists; split; [reflexivity|]. cbv zeta.
  rewrite (set_if_get_ne (Qltb h 1 || Qltb 99 h) _ "humidity" "humidity_temp") by discriminate.
  rewrite (set_if_get_ne (Qltb h 1 || Qltb 99 h) _ "humidity" "ir_temp") by discriminate.
  rewrite (set_if_get_ne (Qltb h 1 || Qltb 99 h) _ "humidity" "ir") by discriminate.
  rewrite (set_if_get_ne _ r "humidity_temp" "ir_temp") by discriminate.
  rewrite (set_if_get_ne _ r "humidity_temp" "ir") by discriminate.
  rewrite H2.
  assert (B : dict_get (if Qltb ht (fl (it - 2)) || Qltb (fl (it + 2)) ht
                        then dict_set r "humidity_temp" Blank else r) "humidity_temp"
              = Some Blank <-> (ht < fl (it - 2) \/ fl (it + 2) < ht)).
  { destruct (Qltb ht (fl (it - 2)) || Qltb (fl (it + 2)) ht) eqn:E.
    - rewrite dict_get_set_eq. apply band_iff in E. tauto.
    - rewrite H1. rewrite <- band_iff, E. split; discriminate. }
  split; [exact B|]. split; [|split; [|split; reflexivity]].
  - intro N. destruct (Qltb ht (fl (it - 2)) || Qltb (fl (it + 2)) ht) eqn:E.
    + apply band_iff in E. contradiction.
    + exact H1.
  - intros Lo Hi. rewrite B. apply band_exact_iff; assumption.
Qed.

Lemma validate_humidity_temp_band_witness :
  (dict_get sample_spec "humidity_temp" = Some (Num (255 # 10)) /\
   dict_get sample_spec "ir_temp" = Some (Num 22) /\
   dict_get sample_spec "humidity" = Some (Num (1 # 2))) /\
  exists r', remove_erroneous sample_spec = Ok r' /\
    (dict_get r' "humidity_temp" = Some Blank <->
       ((255 # 10) < fl (22 - 2) \/ fl (22 + 2) < (255 # 10))) /\
    (~ ((255 # 10) < fl (22 - 2) \/ fl (22 + 2) < (255 # 10)) ->
       dict_get r' "humidity_temp" = Some (Num (255 # 10))) /\
    (fl (22 - 2) == 22 - 2 -> fl (22 + 2) == 22 + 2 ->
       (dict_get r' "humidity_temp" = Some Blank <-> 2 < Qabs ((255 # 10) - 22))) /\
    dict_get r' "ir_temp" = Some (Num 22) /\
    dict_get r' "ir" = dict_get sample_spec "ir".
Proof.
  split; [repeat split; reflexivity|].
  apply (validate_humidity_temp_band sample_spec (255 # 10) 22 (1 # 2));
    reflexivity.
Defined.

(** C5 counterexample.  The band is computed in floating point, so its edges
    move by the rounding of [ir_temp - 2] and [ir_temp + 2]: readings 0.47
    and 2.47, exactly 2 apart as decimals, get humidity_temp blanked
    ([0.47 + 2] is the double below 2.47); readings 0.1 and 2.1, whose
    stored doubles are more than 2 apart, keep it ([0.1 + 2] rounds to the
    double 2.1).  All four values are fixed by [round(x, 2)], so the
    acquisition can hand them over as they are. *)
Lemma humidity_temp_band_float_edges :
  round2 (fl (47 # 100)) = fl (47 # 100) /\ round2 (fl (247 # 100)) = fl (247 # 100) /\
  round2 (fl (1 # 10)) = fl (1 # 10) /\ round2 (fl (21 # 10)) = fl (21 # 10) /\
  (247 # 100) - (47 # 100) == 2 /\
  remove_erroneous (sample_band (fl (47 # 100)) (fl (247 # 100)))
    = Ok (dict_set (sample_band (fl (47 # 100)) (fl (247 # 100))) "humidity_temp" Blank) /\
  2 < Qabs (fl (21 # 10) - fl (1 # 10)) /\
  remove_erroneous (sample_band (fl (1 # 10)) (fl (21 # 10)))
    = Ok (sample_band (fl (1 # 10)) (fl (21 # 10))).
Proof.
  split; [vm_compute; reflexivity|]. split; [vm_compute; reflexivity|].
  split; [vm_compute; reflexivity|]. split; [vm_compute; reflexivity|].
  split; [reflexivity|]. split; [vm_compute; reflexivity|].
  split; [apply Qltb_iff; vm_compute; reflexivity | vm_compute; reflexivity].
Qed.

(** C6. Validation keeps the dict's keys (and their order); every key other
    than [humidity_temp] and [humidity] keeps its value, and those two keep
    their value or become [''] (absent). *)
Theorem validate_frame r r' :
  remove_erroneous r = Ok r' ->
  map fst r' = map fst r /\
  (forall k, k <> "humidity_temp"%string -> k <> "humidity"%string ->
             dict_get r' k = dict_get r k) /\
  (forall k, dict_get r' k = dict_get r k \/ dict_get r' k = Some Blank).
Proof.
  intro H.
  destruct (remove_erroneous_ok_inv r r' H) as (ht & it & h & H1 & H2 & H3).
  rewrite (remove_erroneous_eq r ht it h H1 H2 H3) in H.
  injection H as <-. cbv zeta.
  set (b1 := Qltb ht (fl (it - 2)) || Qltb (fl (it + 2)) ht).
  set (b2 := Qltb h 1 || Qltb 99 h).
  set (r1 := if b1 then dict_set r "humidity_temp" Blank else r).
  assert (K1 : map fst r1 = map fst r).
  { unfold r1. destruct b1; [apply dict_keys_set; congruence | reflexivity]. }
  assert (G1 : dict_get r1 "humidity" = Some (Num h)).
  { unfold r1. rewrite set_if_get_ne by discriminate. exact H3. }
  split; [|split].
  - destruct b2; [|exact K1]. rewrite dict_keys_set by congruence. exact K1.
  - intros k Hk1 Hk2. rewrite set_if_get_ne by exact Hk2.
    unfold r1. rewrite set_if_get_ne by exact Hk1. reflexivity.
  - intro k.
    destruct (String.eqb_spec k "humidity") as [->|Hk2].
    + destruct b2; [right; apply dict_get_set_eq|left].
      unfold r1. rewrite set_if_get_ne by discriminate. reflexivity.
    + rewrite set_if_get_ne by exact Hk2. unfold r1.
      destruct (String.eqb_spec k "humidity_temp") as [->|Hk1].
      * destruct b1; [right; apply dict_get_set_eq | left; reflexivity].
      * left. rewrite set_if_get_ne by exact Hk1. reflexivity.
Qed.

Lemma validate_frame_witness :
  remove_erroneous sample_spec =
    Ok (dict_set (dict_set sample_spec "humidity_temp" Blank) "humidity" Blank) /\
  map fst (dict_set (dict_set sample_spec "humidity_temp" Blank) "humidity" Blank)
    = map fst sample_spec /\
  (forall k, k <> "humidity_temp"%string -> k <> "humidity"%string ->
     dict_get (dict_set (dict_set sample_spec "humidity_temp" Blank) "humidity" Blank) k
     = dict_get sample_spec k) /\
  (forall k,
     dict_get (dict_set (dict_set sample_spec "humidity_temp" Blank) "humidity" Blank) k
       = dict_get sample_spec k \/
     dict_get (dict_set (dict_set sample_spec "humidity_temp" Blank) "humidity" Blank) k
       = Some Blank).
Proof.
  assert (E : remove_erroneous sample_spec =
    Ok (dict_set (dict_set sample_spec "humidity_temp" Blank) "humidity" Blank))
    by (vm_compute; reflexivity).
  split; [exact E|].
  apply (validate_frame sample_spec); exact E.
Defined.

(** ** Serialization: [row_of] *)

(** C8. Whatever fields are absent, the row is the timestamp followed by the
    seven columns infrared_object_temp, humidity_temp, barometer_temp,
    infrared_ambient, humidity, pressure, light, each absent field (missing
    key or [''] value) as an empty cell: [row_of] agrees with the spec's
    [SpecRow.serialize] on every dict that holds the Sample. *)
Theorem row_of_fixed_columns ts r s :
  SpecRow.represents r s -> row_of ts r = SpecRow.serialize ts s.
Proof.
  intro H. unfold row_of, SpecRow.serialize.
  assert (C : columns = map SpecRow.key_of SpecRow.column_order) by reflexivity.
  rewrite C, map_map. f_equal. apply map_ext. intro c.
  specialize (H c). unfold dict_get_or_blank.
  destruct (s c) as [q|].
  - rewrite H. reflexivity.
  - destruct H as [E|E]; rewrite E; reflexivity.
Qed.

Lemma row_of_fixed_columns_witness :
  SpecRow.represents example_readings example_sample /\
  row_of 0 example_readings = SpecRow.serialize 0 example_sample /\
  cells (row_of 0 example_readings)
    = [Num (215 # 10); Blank; Blank; Blank; Blank; Num (1013 # 10); Num 310].
Proof.
  split; [intros []; vm_compute; auto|].
  split; [|vm_compute; reflexivity].
  apply row_of_fixed_columns. intros []; vm_compute; auto.
Defined.

(** ** Acquisition: [get_readings] *)

Ltac gr_close :=
  lazy -[round2 Qplus]; repeat split;
  first [ left; split; [reflexivity | do 7 eexists; reflexivity]
        | right; split; reflexivity
        | left; reflexivity | right; reflexivity | reflexivity ].

(** The whole behaviour of one acquisition, by the first BLE operation that
    fails: the result, what it leaves untouched, and the operations tried. *)
Lemma get_readings_spec w :
  let (r, w') := get_readings w in
  dev_frame w w' /\
  ((faults w' = faults w /\
    exists a b c d e f g, r = Ok (readings_of a b c d e f g)) \/
   (faults w' = S (faults w) /\ r = Ok [])) /\
  devlog w' = rev (attempt (connected w) full_ops (dev_faults w)) ++ devlog w.
Proof.
  destruct w as [c fs src n log nf co io lo ses clk sl sh ins]. cbn [connected dev_faults].
  destruct c.
  - do 20 (destruct fs as [|[] fs]; [gr_close | gr_close |]).
    gr_close.
  - destruct fs as [|[] fs]; gr_close.
Qed.

(** C7. An acquisition never raises and never returns a partial Sample: the
    result is [{}] or all seven readings; and when any BLE operation of the
    enables, reads or disables raised, the result is [{}]. *)
Theorem get_readings_empty_on_fault w :
  let (r, w') := get_readings w in
  (r = Ok [] \/ exists a b c d e f g, r = Ok (readings_of a b c d e f g)) /\
  (faults w' <> faults w -> r = Ok []).
Proof.
  pose proof (get_readings_spec w) as H.
  destruct (get_readings w) as [r w'].
  destruct H as (_ & [[F R] | [F R]] & _).
  - split; [right; exact R | intro N; contradiction].
  - split; [left; exact R | intros _; exact R].
Qed.

(** C9 (amended). The channels are disabled only after every enable and read
    succeeded: the BLE operations one acquisition attempts are the fixed
    sequence (eight enables, four reads, eight disables) cut right after the
    first one that fails, so a fault at an enable or a read skips every
    disable. *)
Theorem get_readings_ops_until_fault w :
  devlog (snd (get_readings w))
  = rev (attempt (connected w) full_ops (dev_faults w)) ++ devlog w.
Proof.
  pose proof (get_readings_spec w) as H.
  destruct (get_readings w) as [r w']. apply H.
Qed.

(** C9 counterexample. The link drops at the first read: [get_readings]
    returns [{}] without attempting any disable. *)
Lemma get_readings_skips_disable :
  fst (get_readings world_fault_at_read) = Ok [] /\
  existsb is_disable (devlog (snd (get_readings world_fault_at_read))) = false.
Proof. split; vm_compute; reflexivity. Qed.

(** ** The other calls of the loop *)

Lemma reconnect_spec w :
  let (r, w') := reconnect w in
  r = (if hd true (connect_ok w) then Ok tt else Raise BTLEException) /\
  sheet w' = sheet w /\ sleeps w' = sleeps w /\ login_ok w' = login_ok w.
Proof.
  destruct w as [c fs src n log nf co io lo ses clk sl sh ins].
  destruct co as [|[] co]; repeat split.
Qed.

Lemma login_open_sheet_spec w :
  let (r, w') := login_open_sheet w in
  r = (if hd true (login_ok w) then Ok (S (sessions w)) else Raise (SystemExit 1)) /\
  sheet w' = sheet w /\ sleeps w' = sleeps w.
Proof.
  destruct w as [c fs src n log nf co io lo ses clk sl sh ins].
  destruct lo as [|[] lo]; repeat split.
Qed.

Lemma print_readings_full a b c d e f g :
  print_readings (readings_of a b c d e f g) = ret tt.
Proof. reflexivity. Qed.

(** [remove_erroneous] raises only [Exception]s (KeyError, TypeError). *)
Definition no_exit {A} (r : Res A) : Prop :=
  match r with Raise e => is_Exception e = true | Ok _ => True end.

Lemma no_exit_rbind {A B} (r : Res A) (f : A -> Res B) :
  no_exit r -> (forall a, no_exit (f a)) -> no_exit (rbind r f).
Proof. destruct r; simpl; auto. Qed.

Lemma remove_erroneous_no_exit r : no_exit (remove_erroneous r).
Proof.
  unfold remove_erroneous, getitem, py_lt, py_gt, py_add, py_sub.
  repeat first
    [ apply no_exit_rbind; [| intros]
    | match goal with
      | |- no_exit (if ?b then _ else _) => destruct b
      | |- no_exit (match ?x with _ => _ end) => destruct x
      end
    | progress unfold py_lt, py_gt
    | exact I | reflexivity ].
Qed.

Lemma append_readings_spec ws rd i w :
  let (r, w') := append_readings ws rd i w in
  login_ok w' = login_ok w /\ connect_ok w' = connect_ok w /\ sleeps w' = sleeps w /\
  ((r = Ok None /\ sheet w' = sheet w) \/
   (exists h rw, ws = Some h /\ r = Ok (Some h) /\
                 sheet w' = insert_at i rw (sheet w))).
Proof.
  unfold append_readings, try_except, bind, lift, now.
  pose proof (remove_erroneous_no_exit rd) as NE.
  destruct (remove_erroneous rd) as [rd'|e].
  - destruct ws as [h|].
    + destruct w as [c fs src n log nf co io lo ses clk sl sh ins].
      destruct io as [|[] io]; cbn.
      * repeat split. right. eauto.
      * repeat split. right. eauto.
      * repeat split. left. auto.
    + cbn. repeat split. left. auto.
  - simpl in NE. rewrite NE. repeat split. left. auto.
Qed.

(** ** One pass of the loop *)

(** Every way a pass of the [while True] body can end: how the loop variables
    and the sheet change, and which exception escapes. *)
Lemma loop_body_spec st w :
  let (r, w') := loop_body st w in
  match r with
  | Ok (st', Empty) =>
      st' = st /\ sheet w' = sheet w /\
      (sleeps w' = sleeps w \/ sleeps w' = 1 :: sleeps w)
  | Ok (st', Stale) =>
      row st' = row st /\ worksheet st' <> None /\ sheet w' = sheet w
  | Ok (st', Written) =>
      row st' = S (row st) /\ exists rw, sheet w' = insert_at (row st) rw (sheet w)
  | Raise e =>
      (e = BTLEException /\ hd true (connect_ok w) = false) \/
      (e = SystemExit 1 /\ hd true (login_ok w) = false)
  end.
Proof.
  unfold loop_body. unfold bind at 1.
  pose proof (get_readings_spec w) as G. destruct (get_readings w) as [r1 w1].
  destruct G as ((Fco & Fio & Flo & Fses & Fsh & Fins & Fsl) &
                 [[_ (a & b & c & d & e & f & g & ->)] | [_ ->]] & _).
  - cbv beta iota. cbn [readings_of].
    rewrite print_readings_full.
    unfold bind at 1 2. unfold ret at 1.
    pose proof (append_readings_spec (worksheet st) (readings_of a b c d e f g) (row st) w1) as A.
    unfold readings_of in A.
    destruct (append_readings _ _ _ w1) as [r2 w2].
    destruct A as (Alo & Aco & Asl & [[-> Ash] | (h & rw & Hws & -> & Ash)]).
    + unfold bind at 1.
      pose proof (login_open_sheet_spec w2) as L.
      destruct (login_open_sheet w2) as [r3 w3]. destruct L as (-> & Lsh & Lsl).
      destruct (hd true (login_ok w2)) eqn:E; cbn.
      * split; [reflexivity | split; [discriminate | congruence]].
      * right. split; [reflexivity | congruence].
    + cbn. split; [reflexivity | exists rw; congruence].
  - cbv beta iota. unfold bind at 1.
    pose proof (reconnect_spec w1) as R.
    destruct (reconnect w1) as [r2 w2]. destruct R as (-> & Rsh & Rsl & _).
    destruct (hd true (connect_ok w1)) eqn:E; cbn.
    + split; [reflexivity | split; [congruence |]].
      rewrite Rsl. exact Fsl.
    + left. split; [reflexivity | congruence].
Qed.

Lemma insert_at_length i rw s : length (insert_at i rw s) = S (length s).
Proof.
  unfold insert_at. rewrite length_app. simpl.
  rewrite <- (firstn_skipn (i - 1) s) at 3. rewrite length_app. lia.
Qed.

Lemma run_S n st : run (S n) st =
  bind (loop_body st) (fun p => bind (run n (fst p)) (fun q => ret (fst q, snd p :: snd q))).
Proof. reflexivity. Qed.

Lemma run_raise n st w e :
  fst (loop_body st w) = Raise e -> fst (run (S n) st w) = Raise e.
Proof.
  intro H. rewrite run_S. unfold bind at 1.
  destruct (loop_body st w) as [r w1]. simpl in H. subst r. reflexivity.
Qed.

(** [n] passes that all found the tag disconnected change neither the loop
    variables nor the sheet, and sleep only the one-second settle delays. *)
Lemma run_empty n st w st' w' :
  run n st w = (Ok (st', repeat Empty n), w') ->
  st' = st /\ sheet w' = sheet w /\
  exists pre, sleeps w' = pre ++ sleeps w /\ Forall (fun d => d = 1) pre.
Proof.
  revert st w st' w'. induction n as [|n IH]; intros st w st' w' H.
  - injection H as <- <-. split; [reflexivity | split; [reflexivity |]].
    exists []. split; [reflexivity | constructor].
  - rewrite run_S in H. unfold bind at 1 in H.
    pose proof (loop_body_spec st w) as L.
    destruct (loop_body st w) as [[[st1 k1]|e] w1]; [|discriminate].
    unfold bind in H. cbn [fst snd] in H.
    destruct (run n st1 w1) as [[[st2 ks2]|e] w2] eqn:R; [|discriminate].
    unfold ret in H. cbn [fst snd repeat] in H.
    injection H as <- -> Hks <-. subst ks2.
    destruct L as (-> & Lsh & Lsl).
    destruct (IH _ _ _ _ R) as (-> & Rsh & pre & Rsl & Rall).
    split; [reflexivity | split; [congruence |]].
    destruct Lsl as [Lsl | Lsl].
    + exists pre. rewrite Rsl, Lsl. auto.
    + exists (pre ++ [1]). rewrite Rsl, Lsl, <- app_assoc. split; [reflexivity|].
      apply Forall_app. split; [exact Rall | repeat constructor].
Qed.

(** ** Passes that acquired a Sample *)

Ltac gr_sample :=
  lazy -[round2 Qplus]; first [ left; reflexivity | right; repeat split ].

(** An acquisition either returns [{}] or ran the whole operation sequence,
    with the settle delay, and reported the tag's next seven values. *)
Lemma get_readings_sample_spec w :
  let (r, w') := get_readings w in
  r = Ok [] \/
  (r = Ok (next_sample (sample_src w) (nsampled w)) /\
   devlog w' = rev full_ops ++ devlog w /\ sleeps w' = 1 :: sleeps w /\
   nsampled w' = (7 + nsampled w)%nat /\ connected w' = true /\ faults w' = faults w /\
   clock w' = clock w + 1 /\ sample_src w' = sample_src w /\
   sheet w' = sheet w /\ inserts w' = inserts w /\
   login_ok w' = login_ok w /\ insert_ok w' = insert_ok w).
Proof.
  destruct w as [c fs src n log nf co io lo ses clk sl sh ins].
  destruct c.
  - do 20 (destruct fs as [|[] fs]; [gr_sample | gr_sample |]). gr_sample.
  - destruct fs as [|[] fs]; gr_sample.
Qed.

(** A pass that acquired a Sample, from the append on. *)
Lemma loop_body_append st w a b c d e f g w1 :
  get_readings w = (Ok (readings_of a b c d e f g), w1) ->
  loop_body st w =
    (ws <- append_readings (worksheet st) (readings_of a b c d e f g) (row st) ;;
     match ws with
     | None =>
         ws <- login_open_sheet ;; ret (mkLoop (Some ws) (row st), Stale)
     | Some h =>
         time_sleep FREQUENCY_SECONDS ;; ret (mkLoop (Some h) (S (row st)), Written)
     end) w1.
Proof. intro G. unfold loop_body, bind at 1. rewrite G. reflexivity. Qed.

(** A pass whose acquisition returned [{}]: one reconnect. *)
Lemma loop_body_empty st w w1 :
  get_readings w = (Ok [], w1) ->
  loop_body st w = (reconnect ;; ret (st, Empty)) w1.
Proof. intro G. unfold loop_body, bind at 1. rewrite G. reflexivity. Qed.

Lemma remove_erroneous_readings_of a b c d e f g :
  exists r, remove_erroneous (readings_of a b c d e f g) = Ok r.
Proof.
  eexists. apply (remove_erroneous_eq _ (round2 c) (round2 a) (round2 d)); reflexivity.
Qed.

(** [append_readings] on readings that pass the validation: at most one
    [insert_row] call, with the row of the current time. *)
Lemma append_readings_valid ws rd r' i w :
  remove_erroneous rd = Ok r' ->
  let (r, w') := append_readings ws rd i w in
  clock w' = clock w /\ sample_src w' = sample_src w /\ nsampled w' = nsampled w /\
  login_ok w' = login_ok w /\ sleeps w' = sleeps w /\
  ((r = Ok None /\ sheet w' = sheet w /\
    (inserts w' = inserts w \/ inserts w' = (i, row_of (clock w) r', false) :: inserts w)) \/
   (exists h, ws = Some h /\ r = Ok (Some h) /\
    inserts w' = (i, row_of (clock w) r', true) :: inserts w /\
    sheet w' = insert_at i (row_of (clock w) r') (sheet w))).
Proof.
  intro E. unfold append_readings, try_except, bind, lift, now. rewrite E.
  destruct ws as [h|].
  - destruct w as [c fs src n log nf co io lo ses clk sl sh ins].
    destruct io as [|[] io]; cbn; do 5 (split; [reflexivity|]).
    + right. exists h. repeat split.
    + right. exists h. repeat split.
    + left. split; [reflexivity | split; [reflexivity | right; reflexivity]].
  - cbn. do 5 (split; [reflexivity|]).
    left. split; [reflexivity | split; [reflexivity | left; reflexivity]].
Qed.

Lemma login_open_sheet_sample w :
  clock (snd (login_open_sheet w)) = clock w /\
  sample_src (snd (login_open_sheet w)) = sample_src w /\
  nsampled (snd (login_open_sheet w)) = nsampled w /\
  sheet (snd (login_open_sheet w)) = sheet w /\
  inserts (snd (login_open_sheet w)) = inserts w.
Proof.
  destruct w as [c fs src n log nf co io lo ses clk sl sh ins].
  destruct lo as [|[] lo]; repeat split.
Qed.

(** A pass that did not find the tag disconnected acquired the tag's next
    seven values and tried to append them, at the current index, with the
    time after the settle delay. *)
Lemma loop_body_sample st w st' k w' :
  loop_body st w = (Ok (st', k), w') -> k <> Empty ->
  exists r, remove_erroneous (next_sample (sample_src w) (nsampled w)) = Ok r /\
    sample_src w' = sample_src w /\ nsampled w' = (7 + nsampled w)%nat /\
    match k with
    | Stale =>
        row st' = row st /\ clock w' = clock w + 1 /\ sheet w' = sheet w /\
        (inserts w' = inserts w \/
         inserts w' = (row st, row_of (clock w + 1) r, false) :: inserts w)
    | Written =>
        row st' = S (row st) /\ clock w' = clock w + 1 + FREQUENCY_SECONDS /\
        inserts w' = (row st, row_of (clock w + 1) r, true) :: inserts w /\
        sheet w' = insert_at (row st) (row_of (clock w + 1) r) (sheet w)
    | Empty => True
    end.
Proof.
  intros H Hk.
  pose proof (get_readings_sample_spec w) as G.
  destruct (get_readings w) as [r1 w1] eqn:GR.
  destruct G as [-> | (-> & _ & _ & N1 & _ & _ & C1 & Src1 & Sh1 & Ins1 & _)].
  - rewrite (loop_body_empty st w w1 GR) in H. unfold bind in H.
    destruct (reconnect w1) as [[]]; injection H; intros; congruence.
  - unfold next_sample in GR |- *.
    rewrite (loop_body_append st w _ _ _ _ _ _ _ w1 GR) in H. unfold bind at 1 in H.
    destruct (remove_erroneous_readings_of (sample_src w (nsampled w))
                (sample_src w (1 + nsampled w)%nat) (sample_src w (2 + nsampled w)%nat)
                (sample_src w (3 + nsampled w)%nat) (sample_src w (4 + nsampled w)%nat)
                (sample_src w (5 + nsampled w)%nat) (sample_src w (6 + nsampled w)%nat))
      as [r E].
    exists r. split; [exact E|].
    pose proof (append_readings_valid (worksheet st) _ r (row st) w1 E) as A.
    destruct (append_readings _ _ _ w1) as [r2 w2].
    destruct A as (Ac & As & An & _ & _ &
                   [(-> & Ash & Ains) | (h & _ & -> & Ains & Ash)]).
    + unfold bind in H. pose proof (login_open_sheet_sample w2) as L.
      destruct (login_open_sheet w2) as [[h|e] w3]; cbn [fst snd] in L;
        [|discriminate]. destruct L as (Lc & Ls & Ln & Lsh & Lins).
      injection H as <- <- <-.
      split; [congruence|]. split; [congruence|].
      split; [reflexivity|]. split; [congruence|]. split; [congruence|].
      rewrite Lins, <- C1, <- Ins1. exact Ains.
    + unfold bind in H. cbn in H.
      injection H as <- <- <-. cbn [time_sleep snd sample_src nsampled clock inserts sheet].
      split; [congruence|]. split; [congruence|].
      split; [reflexivity|]. split; [rewrite Ac, C1; reflexivity|].
      rewrite <- C1, <- Ins1, <- Sh1. split; assumption.
Qed.

(** ** The collector loop *)

(** C1 (amended). A pass whose append signals STALE inserts no row and keeps
    the index; when the next pass writes, it inserts exactly one Row, at that
    same 1-based index, and advances the index by one.  That Row is not the
    failed attempt's: the retry acquires afresh, so it holds the tag's next
    seven values (the ones after those of the failed attempt) and a
    timestamp taken one settle delay later. *)
Theorem stale_retry_fresh_sample st w st1 w1 st2 w2 :
  loop_body st w = (Ok (st1, Stale), w1) ->
  loop_body st1 w1 = (Ok (st2, Written), w2) ->
  row st1 = row st /\ row st2 = S (row st) /\ sheet w1 = sheet w /\
  exists r1 r2,
    remove_erroneous (next_sample (sample_src w) (nsampled w)) = Ok r1 /\
    remove_erroneous (next_sample (sample_src w) (7 + nsampled w)) = Ok r2 /\
    (inserts w1 = inserts w \/
     inserts w1 = (row st, row_of (clock w + 1) r1, false) :: inserts w) /\
    inserts w2 = (row st, row_of (clock w + 1 + 1) r2, true) :: inserts w1 /\
    sheet w2 = insert_at (row st) (row_of (clock w + 1 + 1) r2) (sheet w) /\
    row_of (clock w + 1 + 1) r2 <> row_of (clock w + 1) r1.
Proof.
  intros H1 H2.
  destruct (loop_body_sample _ _ _ _ _ H1 ltac:(discriminate))
    as (r1 & E1 & Src1 & N1 & R1 & C1 & Sh1 & I1).
  destruct (loop_body_sample _ _ _ _ _ H2 ltac:(discriminate))
    as (r2 & E2 & _ & _ & R2 & _ & I2 & Sh2).
  rewrite Src1, N1, C1, R1 in *.
  split; [reflexivity|]. split; [exact R2|]. split; [exact Sh1|].
  exists r1, r2. split; [exact E1|]. split; [exact E2|]. split; [exact I1|].
  split; [exact I2|]. split; [rewrite Sh2, Sh1; reflexivity|].
  intro Heq. apply (f_equal stamp) in Heq. cbn [stamp row_of] in Heq.
  assert (Q : clock w + 1 + 1 == clock w + 1) by (rewrite Heq; reflexivity). lra.
Qed.

Lemma stale_retry_fresh_sample_witness :
  loop_body st0 world_stale_once = (Ok (mkLoop (Some 2%nat) 1, Stale), w_stale1) /\
  loop_body (mkLoop (Some 2%nat) 1) w_stale1 = (Ok (mkLoop (Some 2%nat) 2, Written), w_stale2) /\
  (row (mkLoop (Some 2%nat) 1) = row st0 /\ row (mkLoop (Some 2%nat) 2) = S (row st0) /\
   sheet w_stale1 = sheet world_stale_once /\
   exists r1 r2,
     remove_erroneous (next_sample (sample_src world_stale_once) (nsampled world_stale_once))
       = Ok r1 /\
     remove_erroneous (next_sample (sample_src world_stale_once) (7 + nsampled world_stale_once))
       = Ok r2 /\
     (inserts w_stale1 = inserts world_stale_once \/
      inserts w_stale1 = (row st0, row_of (clock world_stale_once + 1) r1, false)
                           :: inserts world_stale_once) /\
     inserts w_stale2 = (row st0, row_of (clock world_stale_once + 1 + 1) r2, true)
                          :: inserts w_stale1 /\
     sheet w_stale2 = insert_at (row st0) (row_of (clock world_stale_once + 1 + 1) r2)
                        (sheet world_stale_once) /\
     row_of (clock world_stale_once + 1 + 1) r2 <> row_of (clock world_stale_once + 1) r1).
Proof.
  assert (E1 : loop_body st0 world_stale_once = (Ok (mkLoop (Some 2%nat) 1, Stale), w_stale1))
    by (vm_compute; reflexivity).
  assert (E2 : loop_body (mkLoop (Some 2%nat) 1) w_stale1
               = (Ok (mkLoop (Some 2%nat) 2, Written), w_stale2))
    by (vm_compute; reflexivity).
  split; [exact E1|]. split; [exact E2|].
  exact (stale_retry_fresh_sample _ _ _ _ _ _ E1 E2).
Defined.

(** C1 counterexample. The insert at index 1 fails, the session is reopened,
    and the retry at index 1 writes a different Row: the loop acquired a new
    Sample (and timestamp) instead of re-sending the failed one. *)
Lemma stale_retry_reacquires :
  fst (run 2 st0 world_stale_once) = Ok (mkLoop (Some 2%nat) 2, [Stale; Written]) /\
  exists r1 r2,
    inserts (snd (run 2 st0 world_stale_once)) = [(1%nat, r2, true); (1%nat, r1, false)] /\
    r1 <> r2.
Proof.
  split; [vm_compute; reflexivity|].
  eexists; eexists; split; [vm_compute; reflexivity|].
  intro H. injection H. intros. discriminate.
Qed.

(** C2 (amended). A fault in a pass is absorbed only while the recovery step
    itself succeeds.  After an acquisition that found the tag disconnected
    ([{}]) the pass makes one reconnect: if it succeeds the pass returns
    EMPTY; if it fails, [reconnect] re-raises the BLE exception out of the
    loop and the process dies with it (status 1).  After an append that
    signalled STALE the pass re-opens the session: if that succeeds the pass
    returns STALE with the fresh handle; if it fails the process exits with
    status 1.  A pass raises in no other case. *)
Theorem loop_fault_recovery st w rd w1 n :
  get_readings w = (rd, w1) ->
  (rd = Ok [] ->
     (hd true (connect_ok w1) = true -> fst (loop_body st w) = Ok (st, Empty)) /\
     (hd true (connect_ok w1) = false ->
        fst (run (S n) st w) = Raise BTLEException /\
        exit_status (fst (run (S n) st w)) = Some 1%Z)) /\
  (forall r w2, rd = Ok r -> r <> [] ->
     append_readings (worksheet st) r (row st) w1 = (Ok None, w2) ->
     (hd true (login_ok w2) = true ->
        fst (loop_body st w) = Ok (mkLoop (Some (S (sessions w2))) (row st), Stale)) /\
     (hd true (login_ok w2) = false ->
        fst (run (S n) st w) = Raise (SystemExit 1) /\
        exit_status (fst (run (S n) st w)) = Some 1%Z)) /\
  (forall e, fst (loop_body st w) = Raise e ->
     (e = BTLEException /\ rd = Ok [] /\ hd true (connect_ok w1) = false) \/
     (e = SystemExit 1 /\
      exists r w2, rd = Ok r /\ r <> [] /\
        append_readings (worksheet st) r (row st) w1 = (Ok None, w2) /\
        hd true (login_ok w2) = false)).
Proof.
  intro G.
  pose proof (get_readings_spec w) as GS. rewrite G in GS.
  destruct GS as (_ & [[_ (a & b & c & d & e & f & g & ->)] | [_ ->]] & _).
  - split; [intro H; discriminate H|].
    split.
    + intros r w2 Hr Hne A. injection Hr as <-.
      assert (LB : fst (loop_body st w)
                   = if hd true (login_ok w2)
                     then Ok (mkLoop (Some (S (sessions w2))) (row st), Stale)
                     else Raise (SystemExit 1)).
      { rewrite (loop_body_append st w _ _ _ _ _ _ _ w1 G). unfold bind at 1.
        rewrite A. unfold bind.
        pose proof (login_open_sheet_spec w2) as L.
        destruct (login_open_sheet w2) as [r3 w3]. destruct L as (-> & _ & _).
        destruct (hd true (login_ok w2)); reflexivity. }
      split; intro Hl; rewrite Hl in LB; [exact LB|].
      rewrite (run_raise n st w _ LB). split; reflexivity.
    + intros e0 H. rewrite (loop_body_append st w _ _ _ _ _ _ _ w1 G) in H.
      unfold bind at 1 in H.
      pose proof (append_readings_spec (worksheet st) (readings_of a b c d e f g) (row st) w1)
        as A.
      destruct (append_readings _ _ _ w1) as [r2 w2] eqn:EA.
      destruct A as (_ & _ & _ & [[-> _] | (h & rw & _ & -> & _)]).
      * unfold bind in H. pose proof (login_open_sheet_spec w2) as L.
        destruct (login_open_sheet w2) as [r3 w3]. destruct L as (-> & _ & _).
        destruct (hd true (login_ok w2)) eqn:Hl; cbn in H; [discriminate|].
        injection H as <-. right. split; [reflexivity|].
        exists (readings_of a b c d e f g), w2.
        split; [reflexivity|]. split; [discriminate|]. split; [exact EA | exact Hl].
      * unfold bind in H. cbn in H. discriminate.
  - assert (LB : fst (loop_body st w)
                 = if hd true (connect_ok w1) then Ok (st, Empty) else Raise BTLEException).
    { rewrite (loop_body_empty st w w1 G). unfold bind.
      pose proof (reconnect_spec w1) as R.
      destruct (reconnect w1) as [r2 w2]. destruct R as (-> & _).
      destruct (hd true (connect_ok w1)); reflexivity. }
    split; [intros _; split; intro Hc; rewrite Hc in LB;
            [exact LB | rewrite (run_raise n st w _ LB); split; reflexivity]|].
    split; [intros r w2 Hr Hne; injection Hr as Hr; subst r; contradiction|].
    intros e0 H. rewrite LB in H.
    destruct (hd true (connect_ok w1)) eqn:Hc; [discriminate|].
    injection H as <-. left. auto.
Qed.

Lemma loop_fault_recovery_witness :
  get_readings world_reconnect_fails
    = (fst (get_readings world_reconnect_fails), snd (get_readings world_reconnect_fails)) /\
  fst (get_readings world_reconnect_fails) = Ok [] /\
  hd true (connect_ok (snd (get_readings world_reconnect_fails))) = false /\
  let rd := fst (get_readings world_reconnect_fails) in
  let w1 := snd (get_readings world_reconnect_fails) in
  (rd = Ok [] ->
     (hd true (connect_ok w1) = true ->
        fst (loop_body st0 world_reconnect_fails) = Ok (st0, Empty)) /\
     (hd true (connect_ok w1) = false ->
        fst (run 1 st0 world_reconnect_fails) = Raise BTLEException /\
        exit_status (fst (run 1 st0 world_reconnect_fails)) = Some 1%Z)) /\
  (forall r w2, rd = Ok r -> r <> [] ->
     append_readings (worksheet st0) r (row st0) w1 = (Ok None, w2) ->
     (hd true (login_ok w2) = true ->
        fst (loop_body st0 world_reconnect_fails)
          = Ok (mkLoop (Some (S (sessions w2))) (row st0), Stale)) /\
     (hd true (login_ok w2) = false ->
        fst (run 1 st0 world_reconnect_fails) = Raise (SystemExit 1) /\
        exit_status (fst (run 1 st0 world_reconnect_fails)) = Some 1%Z)) /\
  (forall e, fst (loop_body st0 world_reconnect_fails) = Raise e ->
     (e = BTLEException /\ rd = Ok [] /\ hd true (connect_ok w1) = false) \/
     (e = SystemExit 1 /\
      exists r w2, rd = Ok r /\ r <> [] /\
        append_readings (worksheet st0) r (row st0) w1 = (Ok None, w2) /\
        hd true (login_ok w2) = false)).
Proof.
  assert (G : get_readings world_reconnect_fails
              = (fst (get_readings world_reconnect_fails),
                 snd (get_readings world_reconnect_fails)))
    by (destruct (get_readings world_reconnect_fails); reflexivity).
  split; [exact G|].
  split; [vm_compute; reflexivity|]. split; [vm_compute; reflexivity|].
  exact (loop_fault_recovery st0 world_reconnect_fails _ _ 0 G).
Defined.

(** C2 counterexample. Startup connects and logs in; then the link drops and
    the reconnect fails: the BLE exception leaves the loop and the process
    dies with an unhandled exception (exit status 1). *)
Lemma reconnect_failure_escapes_loop :
  fst (start_sensortag 3 world_drop_after_start) = Raise BTLEException /\
  exit_status (fst (start_sensortag 3 world_drop_after_start)) = Some 1%Z.
Proof. split; vm_compute; reflexivity. Qed.

(** C3. However many passes in a row find the tag disconnected, the pass that
    then acquires a Sample (and appends it) inserts exactly one Row, at the
    index the loop had before the failures, and advances it by one; the
    disconnected passes change neither the index nor the sheet and sleep only
    the one-second settle delay, never the cadence. *)
Theorem empty_retries_keep_index N st w stN wN st' w' :
  run N st w = (Ok (stN, repeat Empty N), wN) ->
  loop_body stN wN = (Ok (st', Written), w') ->
  stN = st /\ row st' = S (row st) /\
  (exists rw, sheet w' = insert_at (row st) rw (sheet w)) /\
  (exists pre, sleeps wN = pre ++ sleeps w /\ Forall (fun d => d = 1) pre).
Proof.
  intros HN H.
  destruct (run_empty N st w stN wN HN) as (-> & Nsh & Nsl).
  pose proof (loop_body_spec st wN) as L. rewrite H in L.
  destruct L as (Lrow & rw & Lsh).
  split; [reflexivity | split; [exact Lrow | split; [|exact Nsl]]].
  exists rw. rewrite Lsh, Nsh. reflexivity.
Qed.

Lemma empty_retries_keep_index_witness :
  run 2 st0 world_two_drops
    = (Ok (st0, repeat Empty 2), snd (run 2 st0 world_two_drops)) /\
  loop_body st0 (snd (run 2 st0 world_two_drops))
    = (Ok (mkLoop (Some 1%nat) 2, Written),
       snd (loop_body st0 (snd (run 2 st0 world_two_drops)))) /\
  (st0 = st0 /\ row (mkLoop (Some 1%nat) 2) = S (row st0) /\
   (exists rw, sheet (snd (loop_body st0 (snd (run 2 st0 world_two_drops))))
               = insert_at (row st0) rw (sheet world_two_drops)) /\
   (exists pre, sleeps (snd (run 2 st0 world_two_drops)) = pre ++ sleeps world_two_drops /\
                Forall (fun d => d = 1) pre)).
Proof.
  assert (E1 : run 2 st0 world_two_drops
               = (Ok (st0, repeat Empty 2), snd (run 2 st0 world_two_drops)))
    by (vm_compute; reflexivity).
  assert (E2 : loop_body st0 (snd (run 2 st0 world_two_drops))
               = (Ok (mkLoop (Some 1%nat) 2, Written),
                  snd (loop_body st0 (snd (run 2 st0 world_two_drops)))))
    by (vm_compute; reflexivity).
  split; [exact E1 | split; [exact E2|]].
  exact (empty_retries_keep_index 2 _ _ _ _ _ _ E1 E2).
Defined.

(** C10. When an append signals STALE and the re-login that follows fails,
    [login_open_sheet] calls [sys.exit(1)]: the process ends with exit code 1
    on the same path as a failed startup login, with no retry. *)
Theorem stale_reopen_failure_exits st w r w1 w2 n :
  get_readings w = (Ok r, w1) -> r <> [] ->
  append_readings (worksheet st) r (row st) w1 = (Ok None, w2) ->
  hd true (login_ok w2) = false ->
  fst (run (S n) st w) = Raise (SystemExit 1) /\
  exit_status (fst (run (S n) st w)) = Some 1%Z.
Proof.
  intros G Hne A Lo.
  assert (B : fst (loop_body st w) = Raise (SystemExit 1)).
  { pose proof (get_readings_spec w) as GS. rewrite G in GS.
    destruct GS as (_ & [[_ (a & b & c & d & e & f & g & R)] | [_ R]] & _);
      injection R as ->; [|contradiction].
    unfold loop_body, bind at 1. rewrite G. cbv beta iota. cbn [readings_of].
    rewrite print_readings_full. unfold bind at 1 2. unfold ret at 1.
    rewrite A. unfold bind at 1.
    pose proof (login_open_sheet_spec w2) as L.
    destruct (login_open_sheet w2) as [r3 w3]. destruct L as (-> & _ & _).
    rewrite Lo. reflexivity. }
  rewrite (run_raise n st w _ B). split; reflexivity.
Qed.

Lemma stale_reopen_failure_exits_witness :
  (get_readings world_stale_relogin_fails
     = (Ok (readings_of 20 21 22 23 24 25 26), snd (get_readings world_stale_relogin_fails)) /\
   readings_of 20 21 22 23 24 25 26 <> [] /\
   append_readings (worksheet st0) (readings_of 20 21 22 23 24 25 26) (row st0)
       (snd (get_readings world_stale_relogin_fails))
     = (Ok None, snd (append_readings (worksheet st0) (readings_of 20 21 22 23 24 25 26)
                        (row st0) (snd (get_readings world_stale_relogin_fails)))) /\
   hd true (login_ok (snd (append_readings (worksheet st0) (readings_of 20 21 22 23 24 25 26)
                        (row st0) (snd (get_readings world_stale_relogin_fails))))) = false) /\
  fst (run 1 st0 world_stale_relogin_fails) = Raise (SystemExit 1) /\
  exit_status (fst (run 1 st0 world_stale_relogin_fails)) = Some 1%Z.
Proof.
  assert (G : get_readings world_stale_relogin_fails
     = (Ok (readings_of 20 21 22 23 24 25 26), snd (get_readings world_stale_relogin_fails)))
    by (vm_compute; reflexivity).
  assert (N : readings_of 20 21 22 23 24 25 26 <> []) by discriminate.
  assert (A : append_readings (worksheet st0) (readings_of 20 21 22 23 24 25 26) (row st0)
       (snd (get_readings world_stale_relogin_fails))
     = (Ok None, snd (append_readings (worksheet st0) (readings_of 20 21 22 23 24 25 26)
                        (row st0) (snd (get_readings world_stale_relogin_fails)))))
    by (vm_compute; reflexivity).
  assert (L : hd true (login_ok (snd (append_readings (worksheet st0)
                 (readings_of 20 21 22 23 24 25 26)
                 (row st0) (snd (get_readings world_stale_relogin_fails))))) = false)
    by (vm_compute; reflexivity).
  split; [exact (conj G (conj N (conj A L)))|].
  exact (stale_reopen_failure_exits st0 _ _ _ _ 0 G N A L).
Defined.

(** ** Further properties of the code *)

(** *** Helpers *)

Lemma tag_connect_frame w :
  sheet (snd (tag_connect w)) = sheet w /\ sleeps (snd (tag_connect w)) = sleeps w /\
  inserts (snd (tag_connect w)) = inserts w.
Proof.
  destruct w as [c fs src n log nf co io lo ses clk sl sh ins].
  destruct co as [|[] co]; repeat split.
Qed.

Lemma reconnect_frame w :
  let (r, w') := reconnect w in
  r = (if hd true (connect_ok w) then Ok tt else Raise BTLEException) /\
  sheet w' = sheet w /\ sleeps w' = sleeps w /\ inserts w' = inserts w.
Proof.
  destruct w as [c fs src n log nf co io lo ses clk sl sh ins].
  destruct co as [|[] co]; repeat split.
Qed.

Lemma login_open_sheet_frame w :
  let (r, w') := login_open_sheet w in
  r = (if hd true (login_ok w) then Ok (S (sessions w)) else Raise (SystemExit 1)) /\
  sheet w' = sheet w /\ sleeps w' = sleeps w /\ inserts w' = inserts w.
Proof.
  destruct w as [c fs src n log nf co io lo ses clk sl sh ins].
  destruct lo as [|[] lo]; repeat split.
Qed.

Lemma written_rows_app a b :
  written_rows (a ++ b) = written_rows a ++ written_rows b.
Proof.
  induction a as [|[[i rw] ok] a IH]; simpl; [reflexivity|].
  destruct ok; simpl; rewrite IH; reflexivity.
Qed.

Lemma cadence_sleeps_app a b :
  cadence_sleeps (a ++ b) = (cadence_sleeps a + cadence_sleeps b)%nat.
Proof. unfold cadence_sleeps. rewrite filter_app, length_app. reflexivity. Qed.

(** Inserting right after the first [length P] rows. *)
Lemma insert_at_after P rw s0 :
  insert_at (S (length P)) rw (P ++ s0) = (P ++ [rw]) ++ s0.
Proof.
  unfold insert_at. replace (S (length P) - 1)%nat with (length P) by lia.
  rewrite firstn_app, skipn_app, firstn_all, skipn_all.
  replace (length P - length P)%nat with O by lia. simpl.
  rewrite app_nil_r, <- app_assoc. reflexivity.
Qed.

(** [append_readings] with the [insert_row] calls it logs. *)
Lemma append_readings_log ws rd i w :
  let (r, w') := append_readings ws rd i w in
  login_ok w' = login_ok w /\ sleeps w' = sleeps w /\
  exists new, inserts w' = new ++ inserts w /\
  ((r = Ok None /\ sheet w' = sheet w /\ written_rows new = []) \/
   (exists h rw, ws = Some h /\ r = Ok (Some h) /\ new = [(i, rw, true)] /\
                 sheet w' = insert_at i rw (sheet w))).
Proof.
  unfold append_readings, try_except, bind, lift, now.
  pose proof (remove_erroneous_no_exit rd) as NE.
  destruct (remove_erroneous rd) as [rd'|e].
  - destruct ws as [h|].
    + destruct w as [c fs src n log nf co io lo ses clk sl sh ins].
      destruct io as [|[] io]; cbn; (split; [reflexivity | split; [reflexivity|]]);
        eexists (_ :: []); (split; [reflexivity|]).
      * right. do 2 eexists. repeat split.
      * right. do 2 eexists. repeat split.
      * left. repeat split.
    + cbn. split; [reflexivity | split; [reflexivity|]].
      exists []. split; [reflexivity | left; repeat split].
  - simpl in NE. rewrite NE. split; [reflexivity | split; [reflexivity|]].
    exists []. split; [reflexivity | left; repeat split].
Qed.

(** One pass that returns: the inserts it logged, the sleeps it took, and
    how the loop variables and the sheet change. *)
Lemma loop_body_log st w st' k w' :
  loop_body st w = (Ok (st', k), w') ->
  exists new pre,
    inserts w' = new ++ inserts w /\ sleeps w' = pre ++ sleeps w /\
    match k with
    | Written =>
        row st' = S (row st) /\ worksheet st' <> None /\ pre = [FREQUENCY_SECONDS; 1] /\
        exists rw, new = [(row st, rw, true)] /\ sheet w' = insert_at (row st) rw (sheet w)
    | _ =>
        row st' = row st /\ sheet w' = sheet w /\ written_rows new = [] /\
        (pre = [] \/ pre = [1]) /\ (worksheet st <> None -> worksheet st' <> None)
    end.
Proof.
  intro H. unfold loop_body, bind at 1 in H.
  pose proof (get_readings_spec w) as G. pose proof (get_readings_sample_spec w) as G2.
  destruct (get_readings w) as [r1 w1].
  destruct G as ((Fco & Fio & Flo & Fses & Fsh & Fins & Fsl) &
                 [[_ (a & b & c & d & e & f & g & ->)] | [_ ->]] & _).
  - destruct G2 as [G2 | (_ & _ & S1 & _)]; [discriminate|].
    cbv beta iota in H. cbn [readings_of] in H. rewrite print_readings_full in H.
    unfold bind at 1 2 in H. unfold ret at 1 in H.
    pose proof (append_readings_log (worksheet st) (readings_of a b c d e f g) (row st) w1) as A.
    unfold readings_of in A.
    destruct (append_readings _ _ _ w1) as [r2 w2].
    destruct A as (Alo & Asl & new & Ains &
                   [(-> & Ash & Awr) | (h & rw & Hws & -> & -> & Ash)]).
    + unfold bind at 1 in H.
      pose proof (login_open_sheet_frame w2) as L.
      destruct (login_open_sheet w2) as [r3 w3]. destruct L as (-> & Lsh & Lsl & Lins).
      destruct (hd true (login_ok w2)); cbn in H; [|discriminate].
      injection H as <- <- <-.
      exists new, [1]. split; [congruence|]. split; [rewrite Lsl, Asl, S1; reflexivity|].
      split; [reflexivity|]. split; [congruence|]. split; [exact Awr|].
      split; [right; reflexivity | intros _; discriminate].
    + cbn in H. injection H as <- <- <-.
      exists [(row st, rw, true)], [FREQUENCY_SECONDS; 1]. cbn [inserts sleeps sheet].
      split; [rewrite Ains, Fins; reflexivity|].
      split; [rewrite Asl, S1; reflexivity|].
      split; [reflexivity|]. split; [discriminate|]. split; [reflexivity|].
      exists rw. split; [reflexivity | congruence].
  - cbv beta iota in H. unfold bind at 1 in H.
    pose proof (reconnect_frame w1) as R.
    destruct (reconnect w1) as [r2 w2]. destruct R as (-> & Rsh & Rsl & Rins).
    destruct (hd true (connect_ok w1)); cbn in H; [|discriminate].
    injection H as <- <- <-.
    exists []. destruct Fsl as [Fsl | Fsl]; [exists [] | exists [1]];
      (split; [cbn; congruence|]); (split; [cbn; congruence|]);
      (split; [reflexivity|]); (split; [congruence|]); (split; [reflexivity|]);
      split; auto.
Qed.

(** [n] passes that all return, started with the first [length P] rows of
    the sheet written by the loop ([row = length P + 1]). *)
Lemma run_log n st w st' ks w' :
  run n st w = (Ok (st', ks), w') ->
  forall P s0, sheet w = P ++ s0 -> row st = S (length P) ->
  exists new pre,
    inserts w' = new ++ inserts w /\
    sheet w' = P ++ rev (written_rows new) ++ s0 /\
    row st' = S (length P + count_written ks) /\
    length (written_rows new) = count_written ks /\
    sleeps w' = pre ++ sleeps w /\
    Forall (fun d => d = 1 \/ d = FREQUENCY_SECONDS) pre /\
    cadence_sleeps pre = count_written ks /\
    (worksheet st <> None -> worksheet st' <> None).
Proof.
  revert st w st' ks w'.
  induction n as [|n IH]; intros st w st' ks w' H P s0 Hsh Hrow.
  - injection H as <- <- <-. exists [], [].
    split; [reflexivity|]. split; [exact Hsh|]. split; [simpl; lia|].
    split; [reflexivity|]. split; [reflexivity|]. split; [constructor|].
    split; [reflexivity | auto].
  - rewrite run_S in H. unfold bind at 1 in H.
    destruct (loop_body st w) as [[[st1 k1]|e] w1] eqn:LB; [|discriminate].
    unfold bind in H. cbn [fst snd] in H.
    destruct (run n st1 w1) as [[[st2 ks2]|e] w2] eqn:R; [|discriminate].
    unfold ret in H. cbn [fst snd] in H. injection H as <- <- <-.
    destruct (loop_body_log _ _ _ _ _ LB) as (new1 & pre1 & I1 & S1 & K).
    destruct k1.
    1, 2: destruct K as (Kr & Ksh & Kw & Kp & Kws);
      destruct (IH _ _ _ _ _ R P s0) as
        (new2 & pre2 & I2 & Sh2 & R2 & L2 & S2 & F2 & C2 & W2); [congruence | congruence |];
      exists (new2 ++ new1), (pre2 ++ pre1);
      rewrite written_rows_app, Kw, app_nil_r;
      (split; [rewrite I2, I1, app_assoc; reflexivity|]);
      (split; [exact Sh2|]); (split; [exact R2|]); (split; [exact L2|]);
      (split; [rewrite S2, S1, app_assoc; reflexivity|]);
      (split; [apply Forall_app; split; [exact F2 |];
               destruct Kp as [-> | ->]; repeat constructor; left; reflexivity|]);
      (split; [rewrite cadence_sleeps_app, C2;
               destruct Kp as [-> | ->]; cbn; lia|]);
      intro Hw; apply W2, Kws, Hw.
    + destruct K as (Kr & Kws & -> & rw & -> & Ksh).
      rewrite Hsh, Hrow, insert_at_after in Ksh.
      destruct (IH _ _ _ _ _ R (P ++ [rw]) s0) as
        (new2 & pre2 & I2 & Sh2 & R2 & L2 & S2 & F2 & C2 & W2);
        [exact Ksh | rewrite Kr, Hrow, length_app; simpl; lia |].
      exists (new2 ++ [(row st, rw, true)]), (pre2 ++ [FREQUENCY_SECONDS; 1]).
      rewrite written_rows_app. cbn [written_rows].
      split; [rewrite I2, I1, app_assoc; reflexivity|].
      split; [rewrite Sh2, rev_app_distr, <- !app_assoc; reflexivity|].
      split; [rewrite R2, length_app; cbn [count_written length]; lia|].
      split; [rewrite length_app, L2; cbn [count_written length]; lia|].
      split; [rewrite S2, S1, app_assoc; reflexivity|].
      split; [apply Forall_app; split; [exact F2 |];
              constructor; [right; reflexivity | constructor; [left; reflexivity | constructor]]|].
      split; [rewrite cadence_sleeps_app, C2; cbn; lia|].
      intros _. apply W2, Kws.
Qed.

(** [start_sensortag] that returns went through its connect and its login,
    which leave the sheet, the sleeps and the inserts alone. *)
Lemma start_sensortag_run n w st' ks w' :
  start_sensortag n w = (Ok (st', ks), w') ->
  exists h w2, run n (mkLoop (Some h) 1) w2 = (Ok (st', ks), w') /\
    sheet w2 = sheet w /\ sleeps w2 = sleeps w /\ inserts w2 = inserts w.
Proof.
  intro H. unfold start_sensortag, bind at 1 in H.
  pose proof (tag_connect_frame w) as T.
  destruct (tag_connect w) as [[[]|e] w1]; [|discriminate]. cbn [snd] in T.
  cbv beta iota in H. unfold bind at 1 in H.
  pose proof (login_open_sheet_frame w1) as L.
  destruct (login_open_sheet w1) as [[h|e] w2]; [|discriminate].
  destruct L as (_ & Lsh & Lsl & Lins). destruct T as (Tsh & Tsl & Tins).
  exists h, w2. split; [exact H | repeat split; congruence].
Qed.

(** *** [get_readings], [enable_sensors], [disable_sensors] *)




(** Conversely, an acquisition that returns anything but [{}] made exactly
    the twenty BLE operations of the fixed sequence, in order (the eight
    enables, the four reads, the eight disables), none of them failing,
    slept exactly once, for one second, and left the link up. *)
Theorem get_readings_sample_ran_full_sequence w r w' :
  get_readings w = (r, w') -> r <> Ok [] ->
  devlog w' = rev full_ops ++ devlog w /\ sleeps w' = 1 :: sleeps w /\
  connected w' = true /\ faults w' = faults w.
Proof.
  intros H N. pose proof (get_readings_sample_spec w) as G. rewrite H in G.
  destruct G as [G | (_ & D & Sl & _ & C & F & _)]; [contradiction | auto].
Qed.

Lemma get_readings_sample_ran_full_sequence_witness :
  get_readings world_calm = (fst (get_readings world_calm), snd (get_readings world_calm)) /\
  fst (get_readings world_calm) <> Ok [] /\
  devlog (snd (get_readings world_calm)) = rev full_ops ++ devlog world_calm /\
  sleeps (snd (get_readings world_calm)) = 1 :: sleeps world_calm /\
  connected (snd (get_readings world_calm)) = true /\
  faults (snd (get_readings world_calm)) = faults world_calm.
Proof.
  assert (E : get_readings world_calm
              = (fst (get_readings world_calm), snd (get_readings world_calm)))
    by (destruct (get_readings world_calm); reflexivity).
  assert (N : fst (get_readings world_calm) <> Ok []) by (vm_compute; discriminate).
  split; [exact E|].
  split; [exact N|].
  exact (get_readings_sample_ran_full_sequence _ _ _ E N).
Defined.

(** *** [append_readings] *)

(** With no worksheet ([None]), [append_readings] makes no [insert_row] call,
    leaves the world (tag, sheet, Google session, clock) as it was and
    returns [None], whatever the readings: the validation's errors and the
    AttributeError of [None.insert_row] are both caught.  The validation
    still runs first: readings that pass it are left in the caller's dict
    in their validated form, although no row is written. *)
Theorem append_readings_without_worksheet rd i w :
  append_readings None rd i w = (Ok None, w) /\
  (forall r', remove_erroneous rd = Ok r' -> remove_erroneous_in_place rd = (r', Ok tt)).
Proof.
  split.
  - unfold append_readings, try_except, bind, lift, now.
    pose proof (remove_erroneous_no_exit rd) as NE.
    destruct (remove_erroneous rd) as [rd'|e]; [reflexivity|].
    simpl in NE. rewrite NE. reflexivity.
  - intros r' E. rewrite remove_erroneous_in_place_eq in E.
    destruct (remove_erroneous_in_place rd) as [d [[]|e]]; [|discriminate].
    injection E as ->. reflexivity.
Qed.

(** When one of the three inspected fields is missing or [''] (for instance
    the empty dict of a failed acquisition), [append_readings] makes no
    [insert_row] call, leaves the world as it was and returns [None]: the
    validation raises a KeyError or a TypeError part-way, which is caught.
    The caller's dict is left as it was, or with [humidity_temp] already
    blanked by the first [if]. *)
Theorem append_readings_unreadable_noop ws rd i w :
  ~ (exists ht it h, dict_get rd "humidity_temp" = Some (Num ht) /\
                     dict_get rd "ir_temp" = Some (Num it) /\
                     dict_get rd "humidity" = Some (Num h)) ->
  append_readings ws rd i w = (Ok None, w) /\
  exists e, is_Exception e = true /\
    (remove_erroneous_in_place rd = (rd, Raise e) \/
     remove_erroneous_in_place rd = (dict_set rd "humidity_temp" Blank, Raise e)).
Proof.
  intro N.
  pose proof (remove_erroneous_no_exit rd) as NE.
  destruct (remove_erroneous rd) as [rd'|e] eqn:E.
  - exfalso. apply N. exact (remove_erroneous_ok_inv rd rd' E).
  - simpl in NE. split.
    + unfold append_readings, try_except, bind, lift, now. rewrite E, NE. reflexivity.
    + exists e. split; [exact NE|].
      rewrite remove_erroneous_in_place_eq in E.
      destruct (remove_erroneous_in_place rd) as [d [u|e']] eqn:P; [discriminate|].
      injection E as ->.
      destruct (remove_erroneous_in_place_partial _ _ _ P) as [-> | ->]; auto.
Qed.

Lemma append_readings_unreadable_noop_witness :
  ~ (exists ht it h, dict_get sample_no_humidity "humidity_temp" = Some (Num ht) /\
                     dict_get sample_no_humidity "ir_temp" = Some (Num it) /\
                     dict_get sample_no_humidity "humidity" = Some (Num h)) /\
  remove_erroneous_in_place sample_no_humidity
    = (dict_set sample_no_humidity "humidity_temp" Blank, Raise KeyError) /\
  (append_readings (Some 1%nat) sample_no_humidity 1 world_calm = (Ok None, world_calm) /\
   exists e, is_Exception e = true /\
     (remove_erroneous_in_place sample_no_humidity = (sample_no_humidity, Raise e) \/
      remove_erroneous_in_place sample_no_humidity
        = (dict_set sample_no_humidity "humidity_temp" Blank, Raise e))).
Proof.
  assert (N : ~ (exists ht it h,
                   dict_get sample_no_humidity "humidity_temp" = Some (Num ht) /\
                   dict_get sample_no_humidity "ir_temp" = Some (Num it) /\
                   dict_get sample_no_humidity "humidity" = Some (Num h)))
    by (intros (ht & it & h & _ & _ & G); discriminate G).
  split; [exact N|].
  split; [vm_compute; reflexivity|].
  exact (append_readings_unreadable_noop _ _ _ _ N).
Defined.

(** On a worksheet handle and readings that pass the validation,
    [append_readings] makes exactly one [insert_row] call: at the given
    index, with the row of the current time and the validated readings.
    When it succeeds the row is in the sheet and the handle is returned;
    when it fails the sheet is unchanged and the result is [None]. *)
Theorem append_readings_insert_attempt h rd r' i w :
  remove_erroneous rd = Ok r' ->
  let (r, w') := append_readings (Some h) rd i w in
  inserts w' = (i, row_of (clock w) r', hd true (insert_ok w)) :: inserts w /\
  if hd true (insert_ok w)
  then r = Ok (Some h) /\ sheet w' = insert_at i (row_of (clock w) r') (sheet w)
  else r = Ok None /\ sheet w' = sheet w.
Proof.
  intro E. unfold append_readings, try_except, bind, lift, now. rewrite E.
  destruct w as [c fs src n log nf co io lo ses clk sl sh ins].
  destruct io as [|[] io]; cbn; repeat split.
Qed.

Lemma append_readings_insert_attempt_witness :
  remove_erroneous sample_spec
    = Ok (dict_set (dict_set sample_spec "humidity_temp" Blank) "humidity" Blank) /\
  let (r, w') := append_readings (Some 1%nat) sample_spec 1 world_calm in
  inserts w' = (1%nat, row_of (clock world_calm)
                  (dict_set (dict_set sample_spec "humidity_temp" Blank) "humidity" Blank),
                hd true (insert_ok world_calm)) :: inserts world_calm /\
  if hd true (insert_ok world_calm)
  then r = Ok (Some 1%nat) /\
       sheet w' = insert_at 1 (row_of (clock world_calm)
                    (dict_set (dict_set sample_spec "humidity_temp" Blank) "humidity" Blank))
                    (sheet world_calm)
  else r = Ok None /\ sheet w' = sheet world_calm.
Proof.
  assert (E : remove_erroneous sample_spec
              = Ok (dict_set (dict_set sample_spec "humidity_temp" Blank) "humidity" Blank))
    by (vm_compute; reflexivity).
  split; [exact E|].
  exact (append_readings_insert_attempt 1 sample_spec _ 1 world_calm E).
Defined.

(** *** [login_open_sheet] and [reconnect] *)

(** [login_open_sheet] touches neither the tag nor the sheet; it returns a
    fresh worksheet handle when the login succeeds, and otherwise exits the
    process with status 1, never with any other exception. *)
Theorem login_open_sheet_outcome w :
  let (r, w') := login_open_sheet w in
  (sheet w' = sheet w /\ inserts w' = inserts w /\ devlog w' = devlog w /\
   connected w' = connected w) /\
  ((hd true (login_ok w) = true /\ r = Ok (S (sessions w)) /\
    sessions w' = S (sessions w)) \/
   (hd true (login_ok w) = false /\ r = Raise (SystemExit 1) /\
    exit_status r = Some 1%Z /\ sessions w' = sessions w)).
Proof.
  destruct w as [c fs src n log nf co io lo ses clk sl sh ins].
  destruct lo as [|[] lo]; (split; [repeat split|]); [left | left | right]; repeat split.
Qed.

(** [reconnect] re-raises exactly what the connect raised: it returns when
    the connect succeeds, leaving the link up, and otherwise raises the
    BLE exception with the link down.  It performs no other BLE operation
    and touches neither the Google side nor the sheet. *)
Theorem reconnect_outcome w :
  let (r, w') := reconnect w in
  connected w' = hd true (connect_ok w) /\
  ((r = Ok tt /\ connected w' = true) \/ (r = Raise BTLEException /\ connected w' = false)) /\
  devlog w' = devlog w /\ login_ok w' = login_ok w /\ sessions w' = sessions w /\
  sheet w' = sheet w /\ inserts w' = inserts w.
Proof.
  destruct w as [c fs src n log nf co io lo ses clk sl sh ins].
  destruct co as [|[] co]; (split; [reflexivity|]);
    (split; [first [left; split; reflexivity | right; split; reflexivity]|]); repeat split.
Qed.

(** *** [start_sensortag] *)

(** When [SensorTag(addr)] cannot connect, the BLE exception ends the program
    before any login, acquisition or write. *)
Theorem startup_connect_failure n w :
  hd true (connect_ok w) = false ->
  let (r, w') := start_sensortag n w in
  r = Raise BTLEException /\ exit_status r = Some 1%Z /\
  login_ok w' = login_ok w /\ sessions w' = sessions w /\ devlog w' = devlog w /\
  sheet w' = sheet w /\ inserts w' = inserts w.
Proof.
  intro H. destruct w as [c fs src k log nf co io lo ses clk sl sh ins].
  destruct co as [|[] co]; cbn in H; try discriminate.
  repeat split.
Qed.

Lemma startup_connect_failure_witness :
  hd true (connect_ok world_no_tag) = false /\
  let (r, w') := start_sensortag 5 world_no_tag in
  r = Raise BTLEException /\ exit_status r = Some 1%Z /\
  login_ok w' = login_ok world_no_tag /\ sessions w' = sessions world_no_tag /\
  devlog w' = devlog world_no_tag /\ sheet w' = sheet world_no_tag /\
  inserts w' = inserts world_no_tag.
Proof.
  assert (H : hd true (connect_ok world_no_tag) = false) by reflexivity.
  split; [exact H|].
  exact (startup_connect_failure 5 world_no_tag H).
Defined.

(** When the tag connects but the first login fails, the program exits with
    status 1 before any BLE operation, insert or sleep. *)
Theorem startup_login_failure n w :
  hd true (connect_ok w) = true -> hd true (login_ok w) = false ->
  let (r, w') := start_sensortag n w in
  r = Raise (SystemExit 1) /\ exit_status r = Some 1%Z /\
  devlog w' = devlog w /\ sheet w' = sheet w /\ inserts w' = inserts w /\
  sleeps w' = sleeps w.
Proof.
  intros Hc Hl. destruct w as [c fs src k log nf co io lo ses clk sl sh ins].
  destruct co as [|[] co]; cbn in Hc; try discriminate;
    destruct lo as [|[] lo]; cbn in Hl; try discriminate; repeat split.
Qed.

Lemma startup_login_failure_witness :
  hd true (connect_ok world_no_login) = true /\ hd true (login_ok world_no_login) = false /\
  let (r, w') := start_sensortag 5 world_no_login in
  r = Raise (SystemExit 1) /\ exit_status r = Some 1%Z /\
  devlog w' = devlog world_no_login /\ sheet w' = sheet world_no_login /\
  inserts w' = inserts world_no_login /\ sleeps w' = sleeps world_no_login.
Proof.
  assert (Hc : hd true (connect_ok world_no_login) = true) by reflexivity.
  assert (Hl : hd true (login_ok world_no_login) = false) by reflexivity.
  split; [exact Hc|].
  split; [exact Hl|].
  exact (startup_login_failure 5 world_no_login Hc Hl).
Defined.

(** Rows written by the loop keep the order they were written in: the first
    one at index 1, each later one right below the previous one, all above
    what the sheet held before; so the sheet reads oldest first.  The final
    [row] is one more than the number of rows written. *)
Theorem start_sensortag_rows_in_write_order n w st' ks w' :
  start_sensortag n w = (Ok (st', ks), w') ->
  exists new, inserts w' = new ++ inserts w /\
    sheet w' = rev (written_rows new) ++ sheet w /\
    length (written_rows new) = count_written ks /\
    row st' = S (count_written ks).
Proof.
  intro H. destruct (start_sensortag_run _ _ _ _ _ H) as (h & w2 & R & Sh & _ & I).
  destruct (run_log _ _ _ _ _ _ R [] (sheet w2) eq_refl eq_refl)
    as (new & pre & I2 & Sh2 & R2 & L2 & _).
  exists new. rewrite I2, Sh2, I, Sh. split; [reflexivity|].
  split; [reflexivity|]. split; [exact L2 | exact R2].
Qed.

Lemma start_sensortag_rows_in_write_order_witness :
  start_sensortag 3 world_stale_once
    = (Ok (mkLoop (Some 3%nat) 3, [Stale; Written; Written]),
       snd (start_sensortag 3 world_stale_once)) /\
  exists new, inserts (snd (start_sensortag 3 world_stale_once))
                = new ++ inserts world_stale_once /\
    sheet (snd (start_sensortag 3 world_stale_once))
      = rev (written_rows new) ++ sheet world_stale_once /\
    length (written_rows new) = count_written [Stale; Written; Written] /\
    row (mkLoop (Some 3%nat) 3) = S (count_written [Stale; Written; Written]).
Proof.
  assert (E : start_sensortag 3 world_stale_once
              = (Ok (mkLoop (Some 3%nat) 3, [Stale; Written; Written]),
                 snd (start_sensortag 3 world_stale_once)))
    by (vm_compute; reflexivity).
  split; [exact E|].
  exact (start_sensortag_rows_in_write_order _ _ _ _ _ E).
Defined.

(** The loop sleeps only the one-second settle delays and the 55-second
    cadence, the cadence exactly once per row written; and once started it
    always holds a worksheet handle. *)
Theorem start_sensortag_cadence n w st' ks w' :
  start_sensortag n w = (Ok (st', ks), w') ->
  exists pre, sleeps w' = pre ++ sleeps w /\
    Forall (fun d => d = 1 \/ d = FREQUENCY_SECONDS) pre /\
    cadence_sleeps pre = count_written ks /\ worksheet st' <> None.
Proof.
  intro H. destruct (start_sensortag_run _ _ _ _ _ H) as (h & w2 & R & _ & Sl & _).
  destruct (run_log _ _ _ _ _ _ R [] (sheet w2) eq_refl eq_refl)
    as (new & pre & _ & _ & _ & _ & S2 & F2 & C2 & W2).
  exists pre. rewrite S2, Sl. split; [reflexivity|]. split; [exact F2|].
  split; [exact C2 | apply W2; discriminate].
Qed.

Lemma start_sensortag_cadence_witness :
  start_sensortag 3 world_stale_once
    = (Ok (mkLoop (Some 3%nat) 3, [Stale; Written; Written]),
       snd (start_sensortag 3 world_stale_once)) /\
  exists pre, sleeps (snd (start_sensortag 3 world_stale_once))
                = pre ++ sleeps world_stale_once /\
    Forall (fun d => d = 1 \/ d = FREQUENCY_SECONDS) pre /\
    cadence_sleeps pre = count_written [Stale; Written; Written] /\
    worksheet (mkLoop (Some 3%nat) 3) <> None.
Proof.
  assert (E : start_sensortag 3 world_stale_once
              = (Ok (mkLoop (Some 3%nat) 3, [Stale; Written; Written]),
                 snd (start_sensortag 3 world_stale_once)))
    by (vm_compute; reflexivity).
  split; [exact E|].
  exact (start_sensortag_cadence _ _ _ _ _ E).
Defined.
